(** * PumpGuard AI: the trainer's column heuristics and the predictor's
      decision logic, embedded from [train_model.py] and [app.py]. *)

From Stdlib Require Import String Ascii List Bool Arith ZArith QArith Lia.
From Stdlib Require DecimalString.
From Stdlib Require Import Lqa.
Import ListNotations.
Open Scope string_scope.

(** ** Python values shared by both scripts *)

(** Python [str] operations.  A string is its sequence of characters; [==]
    is equality and [in] is occurrence as a contiguous run.  [lower] and
    [upper] below are the case mappings of the ASCII letters alone: they
    agree with [str.lower] and [str.upper] on ASCII text and serve for the
    sample inputs and for reading the fixed English texts of the scripts.
    The scripts' own calls of [str.lower] and [str.upper], which follow
    Unicode, are taken as given mappings where they occur (see
    [TrainModel]). *)
Module PyStr.

Definition lower_ascii (a : ascii) : ascii :=
  let n := nat_of_ascii a in
  if (65 <=? n)%nat && (n <=? 90)%nat then ascii_of_nat (n + 32) else a.

Definition upper_ascii (a : ascii) : ascii :=
  let n := nat_of_ascii a in
  if (97 <=? n)%nat && (n <=? 122)%nat then ascii_of_nat (n - 32) else a.

Fixpoint lower (s : string) : string :=
  match s with
  | EmptyString => EmptyString
  | String a r => String (lower_ascii a) (lower r)
  end.

Fixpoint upper (s : string) : string :=
  match s with
  | EmptyString => EmptyString
  | String a r => String (upper_ascii a) (upper r)
  end.

(** [t.startswith(s)] *)
Fixpoint startswith (s t : string) : bool :=
  match s, t with
  | EmptyString, _ => true
  | String _ _, EmptyString => false
  | String a s', String b t' => Ascii.eqb a b && startswith s' t'
  end.

(** [s in t] on strings: [s] occurs in [t] as a contiguous run. *)
Fixpoint contains (s t : string) : bool :=
  startswith s t ||
  match t with
  | EmptyString => false
  | String _ t' => contains s t'
  end.

(** The line feed. *)
Definition nl : string := String (ascii_of_nat 10) EmptyString.

(** Truthiness of a string: the empty string is falsy. *)
Definition truthy (s : string) : bool :=
  match s with EmptyString => false | String _ _ => true end.

End PyStr.

(** A Python [dict]: keys are unique and keep their insertion order;
    assigning to a present key replaces its value in place. *)
Module PyDict.
Section Dict.
Context {K V : Type} (keq : K -> K -> bool).

Definition dict : Type := list (K * V).

Fixpoint get (d : dict) (k : K) : option V :=
  match d with
  | [] => None
  | (k', v) :: r => if keq k k' then Some v else get r k
  end.

Fixpoint set (d : dict) (k : K) (v : V) : dict :=
  match d with
  | [] => [(k, v)]
  | (k', v') :: r => if keq k k' then (k', v) :: r else (k', v') :: set r k v
  end.

Definition items (d : dict) : list (K * V) := d.

Definition keys (d : dict) : list K := map fst d.
End Dict.
End PyDict.

(** A float64 as the scripts see it: a finite value (every finite float is a
    rational), the two infinities, or NaN.  Only comparisons are taken on
    readings; every ordered comparison with NaN is false. *)
Inductive reading : Type :=
| Finite (q : Q)
| PosInf
| NegInf
| NaN.

(** [r > k] for an integer literal [k]. *)
Definition gt_int (r : reading) (k : Z) : bool :=
  match r with
  | Finite q => negb (Qle_bool q (inject_Z k))
  | PosInf => true
  | NegInf => false
  | NaN => false
  end.

(** [r <= r'] on floats: false as soon as one side is NaN. *)
Definition le_reading (r r' : reading) : bool :=
  match r, r' with
  | NaN, _ => false
  | _, NaN => false
  | NegInf, _ => true
  | _, PosInf => true
  | Finite q, Finite q' => Qle_bool q q'
  | _, _ => false
  end.

(** Exceptions are carried as values; [Raise] stops the computation. *)
Inductive exception : Type :=
| ValueError (msg : string)
| KeyError (key : Z)
| AttributeError (msg : string)
| Exception (msg : string).

Inductive result (A : Type) : Type :=
| Ok (a : A)
| Raise (e : exception).
Arguments Ok {A} a.
Arguments Raise {A} e.

Definition bind {A B : Type} (m : result A) (k : A -> result B) : result B :=
  match m with
  | Ok a => k a
  | Raise e => Raise e
  end.

Notation "x <- m ;; k" := (bind m (fun x => k))
  (at level 61, m at next level, right associativity).

(** ** train_model.py *)
Module TrainModel.

Definition COMMON_VIB : list string := ["vibration"; "vib"; "vibration_mm_s"].
Definition COMMON_TEMP : list string := ["temperature"; "temp"; "temp_c"].
Definition COMMON_CURR : list string := ["current"; "motor_current"; "amps"].
Definition COMMON_LABEL : list string := ["label"; "status"; "health"; "class"].

Section CaseMapping.
(** [str.lower] and [str.upper], Python's own case mappings. *)
Variable lower : string -> string.
Variable upper : string -> string.

(** The two tests of [detect_column]. *)
Definition ci_equal (c col : string) : bool :=
  String.eqb (lower c) (lower col).

Definition ci_within (c col : string) : bool :=
  PyStr.contains (lower c) (lower col).

(** Inner loop [for col in cols: if test(c, col): return col]. *)
Fixpoint scan_cols (test : string -> string -> bool) (c : string)
    (cols : list string) : option string :=
  match cols with
  | [] => None
  | col :: rest => if test c col then Some col else scan_cols test c rest
  end.

(** Outer loop [for c in candidates: ...]. *)
Fixpoint scan_candidates (test : string -> string -> bool)
    (candidates cols : list string) : option string :=
  match candidates with
  | [] => None
  | c :: rest =>
      match scan_cols test c cols with
      | Some col => Some col
      | None => scan_candidates test rest cols
      end
  end.

Definition detect_column (cols candidates : list string) : option string :=
  match scan_candidates ci_equal candidates cols with
  | Some col => Some col
  | None => scan_candidates ci_within candidates cols
  end.

(** A row of the feature table [X], columns renamed to
    vibration, temperature, current. *)
Record row : Type := Row {
  vibration : reading;
  temperature : reading;
  current : reading
}.

(** Body of the synthesis loop for one row: the three [score+=1] tests. *)
Definition row_score (r : row) : nat :=
  let score := 0%nat in
  let score := if gt_int (vibration r) 6 then S score else score in
  let score := if gt_int (temperature r) 70 then S score else score in
  let score := if gt_int (current r) 12 then S score else score in
  score.

Definition row_label (r : row) : string :=
  let score := row_score r in
  if (2 <=? score)%nat then "CRITICAL"
  else if (score =? 1)%nat then "WARNING"
  else "HEALTHY".

(** [y = []; for _, r in X.iterrows(): ... y.append(...)] *)
Definition synthesize (X : list row) : list string :=
  fold_left (fun y r => (y ++ [row_label r])%list) X [].

(** The table [pd.read_csv] returns, read through the accessors the script
    uses: the column names, the number of rows, the numeric value of a cell
    and the text [astype(str)] gives for it. *)
Record DataFrame : Type := {
  columns : list string;
  nrows : nat;
  number_at : string -> nat -> reading;
  text_at : string -> nat -> string
}.

(** The dict literal passed to [y.replace]. *)
Definition SYNONYMS : PyDict.dict (K:=string) (V:=string) :=
  [("OK", "HEALTHY"); ("GOOD", "HEALTHY"); ("BAD", "CRITICAL"); ("FAIL", "CRITICAL")].

(** [Series.replace(dict)] on one value: a value equal to a key becomes the
    key's value, any other value is kept. *)
Definition replace (table : PyDict.dict (K:=string) (V:=string)) (s : string) : string :=
  match PyDict.get String.eqb table s with
  | Some v => v
  | None => s
  end.

Definition normalize_label (s : string) : string :=
  replace SYNONYMS (upper s).

Section LoadAndPrepare.
(** [X.fillna(X.median())], pandas' own imputation. *)
Variable fillna_median : list row -> list row.

Definition load_and_prepare (df : DataFrame)
    : result (list row * list string) :=
  let cols := columns df in
  let vib := detect_column cols COMMON_VIB in
  let temp := detect_column cols COMMON_TEMP in
  let curr := detect_column cols COMMON_CURR in
  let label := detect_column cols COMMON_LABEL in
  match vib, temp, curr with
  | Some vib, Some temp, Some curr =>
      let X := map (fun i => Row (number_at df vib i) (number_at df temp i)
                                 (number_at df curr i))
                   (seq 0 (nrows df)) in
      let X := fillna_median X in
      let y := match label with
               | None => synthesize X
               | Some label =>
                   map (fun i => normalize_label (text_at df label i))
                       (seq 0 (nrows df))
               end in
      Ok (X, y)
  | _, _, _ => Raise (ValueError "Could not detect vibration/temp/current columns")
  end.

Definition label_map : PyDict.dict (K:=string) (V:=Z) :=
  [("HEALTHY", 0%Z); ("WARNING", 1%Z); ("CRITICAL", 2%Z)].

(** [y.map(label_map)] on one value; [None] is the missing value (NaN)
    pandas puts where the key is absent. *)
Definition encode (s : string) : option Z := PyDict.get String.eqb label_map s.

(** [train], up to the encoded target [y_enc] that is handed to
    [train_test_split]; splitting, fitting and dumping are library calls. *)
Definition train_encode (df : DataFrame) : result (list row * list (option Z)) :=
  Xy <- load_and_prepare df ;;
  let '(X, y) := Xy in
  let y_enc := map encode y in
  Ok (X, y_enc).

(** The metadata document [train] dumps to feature_meta.json. *)
Definition feature_meta : list string * PyDict.dict (K:=string) (V:=Z) :=
  (["vibration"; "temperature"; "current"], label_map).
End LoadAndPrepare.
End CaseMapping.

(** scikit-learn's [fit]: [model.classes_] holds the distinct labels of the
    training target in increasing order ([np.unique]), and the columns of
    [predict_proba] follow [classes_]. *)
Fixpoint insert_class (k : Z) (classes : list Z) : list Z :=
  match classes with
  | [] => [k]
  | x :: rest =>
      if (k <? x)%Z then k :: classes
      else if (k =? x)%Z then classes
      else x :: insert_class k rest
  end.

Definition classes_ (y_train : list Z) : list Z :=
  fold_right insert_class [] y_train.

End TrainModel.

(** ** app.py *)
Module App.

(** [{v: k for k, v in label_map.items()}] *)
Definition inv_label_map (label_map : PyDict.dict (K:=string) (V:=Z))
    : PyDict.dict (K:=Z) (V:=string) :=
  fold_left (fun d kv => PyDict.set Z.eqb d (snd kv) (fst kv))
            (PyDict.items label_map) [].

(** The three loaded artifacts: the scaler and the classifier are library
    objects, read through the one method the script calls on each; [meta]
    is the label map of feature_meta.json. *)
Record Artifacts : Type := {
  scaler_transform : list reading -> list reading;
  predict_proba : list reading -> list Q;
  meta_label_map : PyDict.dict (K:=string) (V:=Z)
}.

Definition Qlt_bool (x y : Q) : bool := negb (Qle_bool y x).

(** [np.argmax]: the first position holding the largest entry. *)
Fixpoint argmax_from (l : list Q) (i best_i : nat) (best : Q) : nat :=
  match l with
  | [] => best_i
  | x :: r =>
      if Qlt_bool best x then argmax_from r (S i) i x
      else argmax_from r (S i) best_i best
  end.

Definition argmax (l : list Q) : result nat :=
  match l with
  | [] => Raise (ValueError "attempt to get argmax of an empty sequence")
  | x :: r => Ok (argmax_from r 1 0 x)
  end.

(** The builtin [max]: the first largest entry. *)
Fixpoint max_from (l : list Q) (best : Q) : Q :=
  match l with
  | [] => best
  | x :: r => if Qlt_bool best x then max_from r x else max_from r best
  end.

Definition py_max (l : list Q) : result Q :=
  match l with
  | [] => Raise (ValueError "max() arg is an empty sequence")
  | x :: r => Ok (max_from r x)
  end.

(** [risk = float(proba[2]) if len(proba) > 2 else float(max(proba))] *)
Definition risk_of (proba : list Q) : result Q :=
  if (2 <? length proba)%nat then Ok (nth 2 proba 0%Q) else py_max proba.

(** The first four statements of the analysis block. *)
Definition predict (art : Artifacts) (vibration temperature current : reading)
    : result (string * Q) :=
  let X := [vibration; temperature; current] in
  let X_scaled := scaler_transform art X in
  let proba := predict_proba art X_scaled in
  idx <- argmax proba ;;
  status <- match PyDict.get Z.eqb (inv_label_map (meta_label_map art)) (Z.of_nat idx) with
            | Some s => Ok s
            | None => Raise (KeyError (Z.of_nat idx))
            end ;;
  risk <- risk_of proba ;;
  Ok (status, risk).

(** An attribute of the service's response object: missing, holding a value,
    or a property whose read raises. *)
Inductive attr (A : Type) : Type :=
| Absent
| Present (a : A)
| Throws (e : exception).
Arguments Absent {A}.
Arguments Present {A} a.
Arguments Throws {A} e.

(** [response]: its [text], its [candidates] (each candidate reduced to what
    [.content.parts[0].text] gives, [None] when that read fails) and
    [str(response)]. *)
Record Response : Type := {
  text : attr string;
  candidates : attr (list (option string));
  str_response : string
}.

(** What the script reads from outside: the environment variable, the
    google.generativeai client (import, configure, generate_content) and the
    clock. *)
Record Env : Type := {
  GEMINI_API_KEY : option string;
  generate_content : string -> string -> result Response;
  time_now : Z
}.

Definition nl : string := PyStr.nl.

(** [str(e)] *)
Definition str_exception (e : exception) : string :=
  match e with
  | ValueError msg => msg
  | KeyError key => DecimalString.NilZero.string_of_int (Z.to_int key)
  | AttributeError msg => msg
  | Exception msg => msg
  end.

Definition FALLBACK_NO_KEY : string :=
  "⚠ Gemini API key missing." ++ nl ++
  "Fallback hypothesis:" ++ nl ++
  "- High vibration → misalignment or bearing wear" ++ nl ++
  "- High temperature → lubrication or cooling issue" ++ nl ++
  "- High current → overload or electrical fault".

Definition fallback_error (e : exception) : string :=
  "⚠ Gemini Error: " ++ str_exception e ++ nl ++ nl ++
  "Fallback hypothesis:" ++ nl ++
  "- Inspect bearings, lubrication, cooling, and electrical load.".

(** [hasattr(obj, name) and obj.name]: the attribute when present and
    truthy.  [hasattr] answers False when reading the attribute raises
    AttributeError, as it does for a missing attribute; any other exception
    of a property comes out of [hasattr]. *)
Definition has_truthy {A : Type} (truthy : A -> bool) (a : attr A) : result (option A) :=
  match a with
  | Absent => Ok None
  | Present v => Ok (if truthy v then Some v else None)
  | Throws (AttributeError _) => Ok None
  | Throws e => Raise e
  end.

Section HypothesisGenerator.
(** Float formatting of the f-string: [{x}] and [{x:.3f}]. *)
Variable str_float : reading -> string.
Variable fmt_3f : Q -> string.

Definition prompt_of (vibration temperature current : reading)
    (status : string) (risk : Q) : string :=
  nl ++ "You are an expert mechanical engineer diagnosing pump faults." ++ nl ++
  nl ++ "Inputs:" ++ nl ++
  "• Vibration: " ++ str_float vibration ++ " mm/s" ++ nl ++
  "• Temperature: " ++ str_float temperature ++ " °C" ++ nl ++
  "• Motor Current: " ++ str_float current ++ " A" ++ nl ++
  "• Status: " ++ status ++ nl ++
  "• Failure Risk: " ++ fmt_3f risk ++ nl ++
  nl ++ "Provide:" ++ nl ++
  "1) Most likely root cause" ++ nl ++
  "2) Mechanical reasoning" ++ nl ++
  "3) 3 recommended maintenance steps" ++ nl ++
  "4) Urgency level" ++ nl.

(** The body of the [try] block. *)
Definition ask_gemini (env : Env) (api_key prompt : string) : result string :=
  response <- generate_content env api_key prompt ;;
  t <- has_truthy PyStr.truthy (text response) ;;
  match t with
  | Some s => Ok s
  | None =>
      cs <- has_truthy (fun l : list (option string) => negb (length l =? 0)%nat)
                       (candidates response) ;;
      match cs with
      | Some (Some s :: _) => Ok s
      | Some _ => Ok (str_response response)
      | None => Ok (str_response response)
      end
  end.

Definition generate_hypothesis (env : Env)
    (vibration temperature current : reading) (status : string) (risk : Q)
    : result string :=
  match GEMINI_API_KEY env with
  | None => Ok FALLBACK_NO_KEY
  | Some EmptyString => Ok FALLBACK_NO_KEY
  | Some api_key =>
      let prompt := prompt_of vibration temperature current status risk in
      match ask_gemini env api_key prompt with
      | Ok s => Ok s
      | Raise e => Ok (fallback_error e)
      end
  end.
End HypothesisGenerator.

(** One entry of [st.session_state.history]: the dict [add_history]
    appends, its keys in insertion order. *)
Record HistoryRecord : Type := {
  timestamp : Z;
  vibration : reading;
  temperature : reading;
  current : reading;
  status : string;
  risk : Q;
  hypothesis : string
}.

Definition add_history (now : Z) (history : list HistoryRecord)
    (v t c : reading) (status : string) (risk : Q) (hypothesis : string)
    : list HistoryRecord :=
  (history ++ [{| timestamp := now; vibration := v; temperature := t;
                  current := c; status := status; risk := risk;
                  hypothesis := hypothesis |}])%list.

Definition clear_history (history : list HistoryRecord) : list HistoryRecord := [].

(** A cell and a table of the frame [history_df] builds. *)
Inductive cell : Type :=
| CInt (z : Z)
| CFloat (x : reading)
| CStr (s : string)
| CTime (seconds : Z).

Record Table : Type := {
  tcolumns : list string;
  trows : list (list cell)
}.

Definition HISTORY_COLUMNS : list string :=
  ["timestamp"; "vibration"; "temperature"; "current"; "status"; "risk"; "hypothesis"].

Definition history_df (history : list HistoryRecord) : Table :=
  match history with
  | [] => {| tcolumns := HISTORY_COLUMNS; trows := [] |}
  | _ :: _ =>
      {| tcolumns := (HISTORY_COLUMNS ++ ["time"])%list;
         trows := map (fun r => [CInt (timestamp r); CFloat (vibration r);
                                 CFloat (temperature r); CFloat (current r);
                                 CStr (status r); CFloat (Finite (risk r));
                                 CStr (hypothesis r); CTime (timestamp r)])
                      history |}
  end.

(** [df.empty]: no rows or no columns. *)
Definition empty (df : Table) : bool :=
  match trows df, tcolumns df with
  | [], _ => true
  | _, [] => true
  | _, _ => false
  end.

(** [{"HEALTHY":"green","WARNING":"orange","CRITICAL":"red"}.get(status, "black")] *)
Definition STATUS_COLORS : PyDict.dict (K:=string) (V:=string) :=
  [("HEALTHY", "green"); ("WARNING", "orange"); ("CRITICAL", "red")].

Definition status_color (status : string) : string :=
  match PyDict.get String.eqb STATUS_COLORS status with
  | Some color => color
  | None => "black"
  end.

Definition REC_VIBRATION : string := "• Inspect bearings & alignment (high vibration).".
Definition REC_TEMPERATURE : string := "• Check lubrication & cooling system (overheating).".
Definition REC_CURRENT : string := "• Inspect motor load or electrical faults (high current).".
Definition REC_NONE : string := "• No immediate issues detected — continue monitoring.".

(** The maintenance recommendations of the analysis block: the list [recs]
    after its four [if ...: recs.append(...)] statements. *)
Definition recommendations (vibration temperature current : reading) : list string :=
  let recs : list string := [] in
  let recs := if gt_int vibration 6 then (recs ++ [REC_VIBRATION])%list else recs in
  let recs := if gt_int temperature 70 then (recs ++ [REC_TEMPERATURE])%list else recs in
  let recs := if gt_int current 12 then (recs ++ [REC_CURRENT])%list else recs in
  let recs := match recs with
              | [] => (recs ++ [REC_NONE])%list
              | _ :: _ => recs
              end in
  recs.

Section Script.
Variable str_float : reading -> string.
Variable fmt_3f : Q -> string.
(** How [to_csv] writes one cell. *)
Variable csv_field : cell -> string.

(** [df.to_csv(index=False)]: the header line, then one line per row. *)
Definition to_csv (df : Table) : string :=
  String.concat "," (tcolumns df) ++ nl ++
  String.concat "" (map (fun r => String.concat "," (map csv_field r) ++ nl)
                        (trows df)).

(** The button that caused this run of the script, if any. *)
Inductive click : Type :=
| NoClick
| ClickAnalyze
| ClickClear.

(** The analysis block, run when the Analyze button was clicked. *)
Definition analyze (env : Env) (art : Artifacts) (v t c : reading)
    (history : list HistoryRecord) : result (list HistoryRecord) :=
  sr <- predict art v t c ;;
  let '(status, risk) := sr in
  hypothesis <- generate_hypothesis str_float fmt_3f env v t c status risk ;;
  Ok (add_history (time_now env) history v t c status risk hypothesis).

(** The sidebar's download button: the CSV text it offers, if it is shown. *)
Definition download_offer (df : Table) : option string :=
  if negb (empty df) then Some (to_csv df) else None.

(** One run of the script, top to bottom: the analysis block, the table
    [df] of the dashboard, then the sidebar.  It gives the history left in
    the session and the download the sidebar offers. *)
Definition run (env : Env) (art : Artifacts) (v t c : reading) (b : click)
    (history : list HistoryRecord)
    : result (list HistoryRecord * option string) :=
  history <- match b with
             | ClickAnalyze => analyze env art v t c history
             | _ => Ok history
             end ;;
  let df := history_df history in
  let history := match b with
                 | ClickClear => clear_history history
                 | _ => history
                 end in
  Ok (history, download_offer df).

(** One interaction with the page: what the outside looks like at that
    moment, the button clicked and the three inputs. *)
Record Interaction : Type := {
  at_env : Env;
  at_click : click;
  at_vibration : reading;
  at_temperature : reading;
  at_current : reading
}.

(** Streamlit runs the script again on every interaction; the session keeps
    the history from one run to the next.  A run that raises has not reached
    [add_history] or [clear_history]: the history stays as it was. *)
Fixpoint replay (art : Artifacts) (interactions : list Interaction)
    (history : list HistoryRecord) : list HistoryRecord :=
  match interactions with
  | [] => history
  | i :: rest =>
      match run (at_env i) art (at_vibration i) (at_temperature i) (at_current i)
                (at_click i) history with
      | Ok out => replay art rest (fst out)
      | Raise _ => replay art rest history
      end
  end.
End Script.

End App.


(** ** What the specification says, in its own words *)
Module Spec.

(** Score to label: 0 is HEALTHY, 1 is WARNING, 2 or more is CRITICAL. *)
Definition label_of_score (score : nat) : string :=
  match score with
  | 0%nat => "HEALTHY"
  | 1%nat => "WARNING"
  | _ => "CRITICAL"
  end.

(** The number of thresholds a row exceeds among v > 6, t > 70, c > 12. *)
Definition exceeded (r : TrainModel.row) : nat :=
  length (filter (fun b : bool => b)
                 [gt_int (TrainModel.vibration r) 6;
                  gt_int (TrainModel.temperature r) 70;
                  gt_int (TrainModel.current r) 12]).

Definition CANONICAL : list string := ["HEALTHY"; "WARNING"; "CRITICAL"].

(** Within one pass, [col] wins: some candidate matches it, no earlier
    candidate matches any column, and no earlier column matches that
    candidate. *)
Definition wins (test : string -> string -> bool) (cols candidates : list string)
    (col : string) : Prop :=
  exists i j c,
    nth_error candidates i = Some c /\
    nth_error cols j = Some col /\
    test c col = true /\
    (forall i' c' col', (i' < i)%nat -> nth_error candidates i' = Some c' ->
                        In col' cols -> test c' col' = false) /\
    (forall j' col', (j' < j)%nat -> nth_error cols j' = Some col' ->
                     test c col' = false).

(** A pass finds nothing: no candidate matches any column. *)
Definition no_match (test : string -> string -> bool) (cols candidates : list string)
    : Prop :=
  forall c col, In c candidates -> In col cols -> test c col = false.

(** The two relations of the detector, in the specification's words, for a
    given lowercase mapping: a candidate and a column name are equal once
    both are lowercased; the lowercased candidate occurs somewhere in the
    lowercased column name. *)
Definition same_name (lower : string -> string) (c col : string) : Prop :=
  lower c = lower col.

Definition name_within (lower : string -> string) (c col : string) : Prop :=
  exists pre post, lower col = pre ++ lower c ++ post.

(** Within one pass over a relation, [col] is the first match: some
    candidate is related to it, no earlier candidate is related to any
    column, and no earlier column is related to that candidate. *)
Definition first_match (R : string -> string -> Prop) (cols candidates : list string)
    (col : string) : Prop :=
  exists i j c,
    nth_error candidates i = Some c /\
    nth_error cols j = Some col /\
    R c col /\
    (forall i' c' col', (i' < i)%nat -> nth_error candidates i' = Some c' ->
                        In col' cols -> ~ R c' col') /\
    (forall j' col', (j' < j)%nat -> nth_error cols j' = Some col' -> ~ R c col').

(** A pass over a relation finds nothing. *)
Definition none_match (R : string -> string -> Prop) (cols candidates : list string)
    : Prop :=
  forall c col, In c candidates -> In col cols -> ~ R c col.

(** The fields among vibration, temperature, current that the detector
    leaves unresolved for a list of column names. *)
Definition unresolved (lower : string -> string) (cols : list string) : list string :=
  let missing (field : string) (candidates : list string) : list string :=
    match TrainModel.detect_column lower cols candidates with
    | Some _ => []
    | None => [field]
    end in
  (missing "vibration" TrainModel.COMMON_VIB ++
   missing "temperature" TrainModel.COMMON_TEMP ++
   missing "current" TrainModel.COMMON_CURR)%list.

(** Canonicalization of a label value: uppercase, then OK and GOOD become
    HEALTHY, BAD and FAIL become CRITICAL. *)
Definition canonicalize (upper : string -> string) (s : string) : string :=
  let u := upper s in
  if String.eqb u "OK" || String.eqb u "GOOD" then "HEALTHY"
  else if String.eqb u "BAD" || String.eqb u "FAIL" then "CRITICAL"
  else u.

(** An entry of the label map read the other way round. *)
Definition swap (kv : string * Z) : Z * string := (snd kv, fst kv).

(** A text mentions a word, whatever the case. *)
Definition mentions (text word : string) : bool :=
  PyStr.contains word (PyStr.lower text).

End Spec.

(** ** Sample inputs *)
Module Samples.

(** A frame of the given columns whose numeric cells all hold [x] and whose
    text cells all hold [s]. *)
Definition frame (cols : list string) (n : nat) (x : reading) (s : string)
    : TrainModel.DataFrame :=
  {| TrainModel.columns := cols;
     TrainModel.nrows := n;
     TrainModel.number_at := fun _ _ => x;
     TrainModel.text_at := fun _ _ => s |}.

(** An imputation that finds nothing to fill. *)
Definition no_fill (X : list TrainModel.row) : list TrainModel.row := X.

Definition no_vibration : TrainModel.DataFrame :=
  frame ["temp"; "amps"] 1 (Finite (inject_Z 1)) "".

Definition no_temperature : TrainModel.DataFrame :=
  frame ["vib"; "amps"] 1 (Finite (inject_Z 1)) "".

Definition unlabeled : TrainModel.DataFrame :=
  frame ["vib"; "temp"; "amps"] 2 (Finite (inject_Z 8)) "".


Definition labeled_broken : TrainModel.DataFrame :=
  frame ["vib"; "temp"; "amps"; "label"] 2 (Finite (inject_Z 1)) "broken".

(** A labelled table of four rows whose labels alternate between ok and
    fail: no row is a WARNING. *)
Definition ok_or_fail : TrainModel.DataFrame :=
  {| TrainModel.columns := ["vib"; "temp"; "amps"; "label"];
     TrainModel.nrows := 4;
     TrainModel.number_at := fun _ _ => Finite (inject_Z 1);
     TrainModel.text_at := fun _ i => if Nat.even i then "ok" else "fail" |}.

(** A scaler that leaves the readings as they are. *)
Definition no_scaling (X : list reading) : list reading := X.

(** A classifier answering HEALTHY 0.7, WARNING 0.2, CRITICAL 0.1 in the
    order of the indices 0, 1, 2. *)
Definition mostly_first (X : list reading) : list Q := [7 # 10; 2 # 10; 1 # 10].

(** Artifacts as the trainer persists them. *)
Definition trained : App.Artifacts :=
  {| App.scaler_transform := no_scaling;
     App.predict_proba := mostly_first;
     App.meta_label_map := TrainModel.label_map |}.

(** A classifier fitted on labels 0 and 2 only: its two columns stand for
    the classes 0 and 2, and it gives the second one 0.9. *)
Definition mostly_second (X : list reading) : list Q := [1 # 10; 9 # 10].

Definition trained_on_two : App.Artifacts :=
  {| App.scaler_transform := no_scaling;
     App.predict_proba := mostly_second;
     App.meta_label_map := TrainModel.label_map |}.

(** A metadata document that gives CRITICAL the index 0. *)
Definition critical_first : PyDict.dict (K:=string) (V:=Z) :=
  [("CRITICAL", 0%Z); ("WARNING", 1%Z); ("HEALTHY", 2%Z)].

(** Renderers standing for Python's float formatting and pandas' CSV
    writer; the sample runs do not look at what they print. *)
Definition show_float (x : reading) : string := "x".
Definition show_3f (q : Q) : string := "0.000".
Definition show_cell (x : App.cell) : string := "cell".

(** No API key in the environment. *)
Definition env_no_key : App.Env :=
  {| App.GEMINI_API_KEY := None;
     App.generate_content := fun _ _ => Raise (Exception "unreachable");
     App.time_now := 1700000000%Z |}.

(** A key is set and the service call raises with the given message. *)
Definition env_raising (msg : string) : App.Env :=
  {| App.GEMINI_API_KEY := Some "key";
     App.generate_content := fun _ _ => Raise (Exception msg);
     App.time_now := 1700000000%Z |}.

Definition one_record : App.HistoryRecord :=
  {| App.timestamp := 1700000000%Z;
     App.vibration := Finite (inject_Z 3);
     App.temperature := Finite (inject_Z 35);
     App.current := Finite (inject_Z 6);
     App.status := "HEALTHY";
     App.risk := 1 # 10;
     App.hypothesis := "none" |}.

End Samples.

(** ** Properties *)

(** *** Strings *)
Module PyStrFacts.
Import PyStr.

Lemma startswith_app (s t : string) : startswith s (s ++ t) = true.
Proof.
  induction s as [|a s IH]; simpl; [reflexivity|].
  now rewrite Ascii.eqb_refl, IH.
Qed.

Lemma startswith_inv (s t : string) :
  startswith s t = true -> exists post, t = s ++ post.
Proof.
  revert t; induction s as [|a s IH]; intros t H; simpl in *.
  - now exists t.
  - destruct t as [|b t]; [discriminate|].
    apply andb_true_iff in H as [Hab Hst].
    apply Ascii.eqb_eq in Hab; subst b.
    destruct (IH _ Hst) as [post ->]. now exists post.
Qed.

Lemma append_empty_r (s : string) : s ++ "" = s.
Proof. induction s as [|a s IH]; simpl; [reflexivity|now rewrite IH]. Qed.

Lemma contains_unfold (s t : string) :
  contains s t =
  startswith s t || match t with EmptyString => false | String _ t' => contains s t' end.
Proof. destruct t; reflexivity. Qed.

(** [contains] is Python's [in]: an occurrence somewhere in the text. *)
Lemma contains_spec (s t : string) :
  contains s t = true <-> exists pre post, t = pre ++ s ++ post.
Proof.
  split.
  - induction t as [|b t IH]; rewrite contains_unfold; intros H;
      apply orb_true_iff in H as [H|H].
    + destruct (startswith_inv _ _ H) as [post Hp]. now exists "", post.
    + discriminate.
    + destruct (startswith_inv _ _ H) as [post Hp]. now exists "", post.
    + destruct (IH H) as (pre & post & ->). now exists (String b pre), post.
  - intros (pre & post & ->).
    induction pre as [|b pre IH].
    + rewrite contains_unfold. simpl append at 1.
      now rewrite startswith_app.
    + rewrite contains_unfold. apply orb_true_iff; right. exact IH.
Qed.

End PyStrFacts.

(** *** The label synthesizer *)
Module SynthesisFacts.
Import TrainModel.

Lemma synthesize_from (X : list row) (y : list string) :
  fold_left (fun y r => (y ++ [row_label r])%list) X y = (y ++ map row_label X)%list.
Proof.
  revert y; induction X as [|r X IH]; intros y; simpl.
  - now rewrite app_nil_r.
  - rewrite IH, <- app_assoc. reflexivity.
Qed.

Lemma synthesize_map (X : list row) : synthesize X = map row_label X.
Proof. unfold synthesize. now rewrite synthesize_from. Qed.

Lemma row_score_exceeded (r : row) : row_score r = Spec.exceeded r.
Proof.
  unfold row_score, Spec.exceeded.
  destruct (gt_int (vibration r) 6), (gt_int (temperature r) 70),
    (gt_int (current r) 12); reflexivity.
Qed.

Lemma row_score_le_3 (r : row) : (row_score r <= 3)%nat.
Proof.
  unfold row_score.
  destruct (gt_int (vibration r) 6), (gt_int (temperature r) 70),
    (gt_int (current r) 12); lia.
Qed.

Lemma row_label_of_score (r : row) :
  row_label r = Spec.label_of_score (row_score r).
Proof.
  unfold row_label. pose proof (row_score_le_3 r) as H.
  destruct (row_score r) as [|[|[|[|n]]]]; try reflexivity; lia.
Qed.

Lemma row_label_canonical (r : row) : In (row_label r) Spec.CANONICAL.
Proof.
  rewrite row_label_of_score. unfold Spec.CANONICAL.
  destruct (row_score r) as [|[|n]]; simpl; auto.
Qed.

Lemma canonical_encodes (l : string) :
  In l Spec.CANONICAL -> exists i, encode l = Some i /\ (0 <= i <= 2)%Z.
Proof.
  intros [<-|[<-|[<-|[]]]]; eexists; (split; [reflexivity|lia]).
Qed.

(** C1: the synthesized labels are the row function mapped over the table
    (each label depends on its own row only), the row function gives a label
    for every row, that label is the one the count of exceeded thresholds
    (v > 6, t > 70, c > 12) selects, the count is at most 3, and the three
    rows of the specification get WARNING, CRITICAL and HEALTHY. *)
Theorem synthesis_is_threshold_count :
  (forall X, synthesize X = map row_label X) /\
  (forall r, row_score r = Spec.exceeded r /\ (row_score r <= 3)%nat /\
             row_label r = Spec.label_of_score (Spec.exceeded r)) /\
  row_label (Row (Finite (inject_Z 7)) (Finite (inject_Z 30)) (Finite (inject_Z 5)))
    = "WARNING" /\
  row_label (Row (Finite (inject_Z 7)) (Finite (inject_Z 80)) (Finite (inject_Z 5)))
    = "CRITICAL" /\
  row_label (Row (Finite (inject_Z 1)) (Finite (inject_Z 1)) (Finite (inject_Z 1)))
    = "HEALTHY".
Proof.
  split; [exact synthesize_map|].
  split; [|repeat split; reflexivity].
  intros r. split; [apply row_score_exceeded|].
  split; [apply row_score_le_3|].
  rewrite <- row_score_exceeded. apply row_label_of_score.
Qed.

(** C9: every synthesized label is HEALTHY, WARNING or CRITICAL, so the
    label map encodes the whole synthesized column: one index in 0..2 per
    row of the feature table and no missing value. *)
Theorem synthesized_labels_encode (X : list row) :
  Forall (fun l => In l Spec.CANONICAL) (synthesize X) /\
  exists codes : list Z,
    map encode (synthesize X) = map Some codes /\
    length codes = length X /\
    Forall (fun i => (0 <= i <= 2)%Z) codes.
Proof.
  rewrite synthesize_map. split.
  - apply Forall_forall. intros l Hl. apply in_map_iff in Hl as (r & <- & _).
    apply row_label_canonical.
  - induction X as [|r X (codes & Hm & Hl & Hr)]; simpl.
    + exists []. repeat split; constructor.
    + destruct (canonical_encodes _ (row_label_canonical r)) as (i & Hi & Hb).
      exists (i :: codes). simpl. rewrite Hi, Hm, Hl. repeat split; try lia.
      constructor; [lia|assumption].
Qed.

End SynthesisFacts.

(** *** The column detector *)
Module DetectFacts.
Import TrainModel.

Section OnePass.
Variable test : string -> string -> bool.

Lemma scan_cols_None (c : string) (cols : list string) :
  scan_cols test c cols = None <-> forall col, In col cols -> test c col = false.
Proof.
  induction cols as [|col cols IH]; simpl.
  - split; [intros _ ? []|reflexivity].
  - destruct (test c col) eqn:E.
    + split; [discriminate|]. intros H.
      assert (test c col = false) by (apply H; now left). congruence.
    + rewrite IH. split.
      * intros H x [<-|Hx]; auto.
      * intros H x Hx. apply H. auto.
Qed.

Lemma scan_cols_Some (c : string) (cols : list string) (col : string) :
  scan_cols test c cols = Some col <->
  exists j, nth_error cols j = Some col /\ test c col = true /\
            forall j' col', (j' < j)%nat -> nth_error cols j' = Some col' ->
                            test c col' = false.
Proof.
  induction cols as [|x cols IH]; simpl.
  - split; [discriminate|]. intros (j & Hj & _). destruct j; discriminate.
  - destruct (test c x) eqn:E.
    + split.
      * intros [= <-]. exists 0%nat. repeat split; auto. intros; lia.
      * intros (j & Hj & Ht & Hmin). destruct j as [|j].
        -- simpl in Hj. exact Hj.
        -- assert (test c x = false) by (apply (Hmin 0%nat); [lia|reflexivity]).
           congruence.
    + rewrite IH. split.
      * intros (j & Hj & Ht & Hmin). exists (S j). repeat split; auto.
        intros [|j'] col' Hlt Hn; simpl in Hn.
        -- now injection Hn as <-.
        -- apply (Hmin j'); auto; lia.
      * intros (j & Hj & Ht & Hmin). destruct j as [|j]; simpl in Hj.
        -- injection Hj as ->. congruence.
        -- exists j. repeat split; auto.
           intros j' col' Hlt Hn. apply (Hmin (S j')); auto; lia.
Qed.

Lemma scan_candidates_None (candidates cols : list string) :
  scan_candidates test candidates cols = None <-> Spec.no_match test cols candidates.
Proof.
  unfold Spec.no_match. induction candidates as [|c cs IH]; simpl.
  - split; [intros _ ? ? []|reflexivity].
  - destruct (scan_cols test c cols) eqn:E.
    + split; [discriminate|]. intros H.
      apply scan_cols_Some in E as (j & Hj & Ht & _).
      assert (test c s = false) by (apply H; [now left|eapply nth_error_In; eauto]).
      congruence.
    + rewrite IH. pose proof (proj1 (scan_cols_None c cols) E) as Hc. split.
      * intros H x col [<-|Hx] Hcol; auto.
      * intros H x col Hx Hcol. apply H; auto.
Qed.

Lemma scan_candidates_Some (candidates cols : list string) (col : string) :
  scan_candidates test candidates cols = Some col <-> Spec.wins test cols candidates col.
Proof.
  unfold Spec.wins. induction candidates as [|c cs IH]; simpl.
  - split; [discriminate|]. intros (i & j & c & Hi & _). destruct i; discriminate.
  - destruct (scan_cols test c cols) eqn:E.
    + pose proof (proj1 (scan_cols_Some c cols s) E) as (j0 & Hj0 & Ht0 & Hmin0).
      split.
      * intros [= <-]. exists 0%nat, j0, c. repeat split; auto. intros; lia.
      * intros (i & j & c0 & Hi & Hj & Ht & Hci & Hcj). destruct i as [|i]; simpl in Hi.
        -- injection Hi as <-. rewrite <- E. apply scan_cols_Some. eauto.
        -- assert (test c s = false)
             by (apply (Hci 0%nat); [lia|reflexivity|eapply nth_error_In; eauto]).
           congruence.
    + pose proof (proj1 (scan_cols_None c cols) E) as Hnone.
      rewrite IH. split.
      * intros (i & j & c0 & Hi & Hj & Ht & Hci & Hcj).
        exists (S i), j, c0. repeat split; auto.
        intros [|i'] c' col' Hlt Hn Hin; simpl in Hn.
        -- injection Hn as <-. auto.
        -- apply (Hci i'); auto; lia.
      * intros (i & j & c0 & Hi & Hj & Ht & Hci & Hcj). destruct i as [|i]; simpl in Hi.
        -- injection Hi as <-.
           assert (test c col = false) by (apply Hnone; eapply nth_error_In; eauto).
           congruence.
        -- exists i, j, c0. repeat split; auto.
           intros i' c' col' Hlt Hn Hin. apply (Hci (S i')); auto; lia.
Qed.

End OnePass.

Section Lowercase.
Variable lower : string -> string.

(** Case-insensitive equality is a case of case-insensitive containment. *)
Lemma ci_equal_within (c col : string) :
  ci_equal lower c col = true -> ci_within lower c col = true.
Proof.
  unfold ci_equal, ci_within. intros H. apply String.eqb_eq in H. rewrite H.
  apply PyStrFacts.contains_spec. exists "", "".
  now rewrite PyStrFacts.append_empty_r.
Qed.

Lemma ci_equal_spec (c col : string) :
  ci_equal lower c col = true <-> Spec.same_name lower c col.
Proof. unfold ci_equal, Spec.same_name. apply String.eqb_eq. Qed.

Lemma ci_within_spec (c col : string) :
  ci_within lower c col = true <-> Spec.name_within lower c col.
Proof. unfold ci_within, Spec.name_within. apply PyStrFacts.contains_spec. Qed.

(** The detector through its two tests: the result of pass 1 if it finds a
    column, the result of pass 2 otherwise. *)
Lemma detect_column_passes (cols candidates : list string) :
  (forall col,
      detect_column lower cols candidates = Some col <->
      Spec.wins (ci_equal lower) cols candidates col \/
      (Spec.no_match (ci_equal lower) cols candidates /\
       Spec.wins (ci_within lower) cols candidates col)) /\
  (detect_column lower cols candidates = None <->
   Spec.no_match (ci_within lower) cols candidates).
Proof.
  unfold detect_column. split.
  - intros col. destruct (scan_candidates (ci_equal lower) candidates cols) eqn:E.
    + split.
      * intros [= <-]. left. now apply scan_candidates_Some.
      * intros [H|[H _]].
        -- apply scan_candidates_Some in H. congruence.
        -- apply scan_candidates_None in H. congruence.
    + rewrite scan_candidates_Some. split.
      * intros H. right. split; [now apply scan_candidates_None|exact H].
      * intros [H|[_ H]]; [|exact H].
        apply scan_candidates_Some in H. congruence.
  - destruct (scan_candidates (ci_equal lower) candidates cols) eqn:E.
    + split; [discriminate|]. intros H.
      apply scan_candidates_Some in E as (i & j & c & Hi & Hj & Ht & _).
      apply ci_equal_within in Ht.
      assert (ci_within lower c s = false) by (apply H; eapply nth_error_In; eauto).
      congruence.
    + apply scan_candidates_None.
Qed.

End Lowercase.

Section Reflect.
Variable test : string -> string -> bool.
Variable R : string -> string -> Prop.
Hypothesis test_spec : forall c col, test c col = true <-> R c col.

Lemma test_false (c col : string) : test c col = false <-> ~ R c col.
Proof.
  rewrite <- test_spec. destruct (test c col); split; intros H;
    try reflexivity; try discriminate.
  - now destruct H.
Qed.

Lemma wins_first_match (cols candidates : list string) (col : string) :
  Spec.wins test cols candidates col <-> Spec.first_match R cols candidates col.
Proof.
  unfold Spec.wins, Spec.first_match. split.
  - intros (i & j & c & Hi & Hj & Ht & Hci & Hcj). exists i, j, c.
    repeat split; auto.
    + now apply test_spec.
    + intros i' c' col' Hlt Hn Hin. apply test_false. eauto.
    + intros j' col' Hlt Hn. apply test_false. eauto.
  - intros (i & j & c & Hi & Hj & Ht & Hci & Hcj). exists i, j, c.
    repeat split; auto.
    + now apply test_spec.
    + intros i' c' col' Hlt Hn Hin. apply test_false. eauto.
    + intros j' col' Hlt Hn. apply test_false. eauto.
Qed.

Lemma no_match_none_match (cols candidates : list string) :
  Spec.no_match test cols candidates <-> Spec.none_match R cols candidates.
Proof.
  unfold Spec.no_match, Spec.none_match. split.
  - intros H c col Hc Hcol. apply test_false. auto.
  - intros H c col Hc Hcol. apply test_false. auto.
Qed.

End Reflect.

(** C2: for Python's lowercase mapping, whatever it does to a name, the
    detector returns a column exactly when that column is the first match
    of pass 1, where a candidate and a column match when their lowercase
    forms are equal, or pass 1 matches nothing and the column is the first
    match of pass 2, where they match when the candidate's lowercase form
    occurs in the column's; the first match of a pass is the first column,
    in column order, matched by the first candidate, in candidate order,
    that matches any column.  It returns not-found exactly when no
    candidate's lowercase form occurs in any column's. *)
Theorem detect_column_two_pass (lower : string -> string)
    (cols candidates : list string) :
  (forall col,
      detect_column lower cols candidates = Some col <->
      Spec.first_match (Spec.same_name lower) cols candidates col \/
      (Spec.none_match (Spec.same_name lower) cols candidates /\
       Spec.first_match (Spec.name_within lower) cols candidates col)) /\
  (detect_column lower cols candidates = None <->
   Spec.none_match (Spec.name_within lower) cols candidates).
Proof.
  destruct (detect_column_passes lower cols candidates) as [Hsome Hnone].
  split.
  - intros col. rewrite Hsome.
    rewrite (wins_first_match _ _ (ci_equal_spec lower)).
    rewrite (wins_first_match _ _ (ci_within_spec lower)).
    rewrite (no_match_none_match _ _ (ci_equal_spec lower)).
    reflexivity.
  - rewrite Hnone. apply (no_match_none_match _ _ (ci_within_spec lower)).
Qed.

End DetectFacts.

(** *** Loading and preparing the table *)
Module LoadFacts.
Import TrainModel.

Lemma unresolved_nil (lower : string -> string) (cols : list string) :
  Spec.unresolved lower cols = [] <->
  exists vib temp curr,
    detect_column lower cols COMMON_VIB = Some vib /\
    detect_column lower cols COMMON_TEMP = Some temp /\
    detect_column lower cols COMMON_CURR = Some curr.
Proof.
  unfold Spec.unresolved.
  destruct (detect_column lower cols COMMON_VIB) as [vib|],
    (detect_column lower cols COMMON_TEMP) as [temp|],
    (detect_column lower cols COMMON_CURR) as [curr|]; simpl; split;
    try discriminate; try reflexivity;
    try (intros (? & ? & ? & ? & ? & ?); discriminate).
  intros _. exists vib, temp, curr. auto.
Qed.

Lemma load_raises (lower upper : string -> string)
    (fillna_median : list row -> list row) (df : DataFrame) :
  Spec.unresolved lower (columns df) <> [] ->
  load_and_prepare lower upper fillna_median df =
  Raise (ValueError "Could not detect vibration/temp/current columns").
Proof.
  unfold Spec.unresolved, load_and_prepare.
  destruct (detect_column lower (columns df) COMMON_VIB),
    (detect_column lower (columns df) COMMON_TEMP),
    (detect_column lower (columns df) COMMON_CURR); simpl; intros H;
    try reflexivity. now destruct H.
Qed.


Lemma normalize_canonicalize (upper : string -> string) (s : string) :
  normalize_label upper s = Spec.canonicalize upper s.
Proof.
  unfold normalize_label, Spec.canonicalize, replace, SYNONYMS. simpl.
  destruct (String.eqb (upper s) "OK"); [reflexivity|].
  destruct (String.eqb (upper s) "GOOD"); [reflexivity|].
  destruct (String.eqb (upper s) "BAD"); [reflexivity|].
  destruct (String.eqb (upper s) "FAIL"); reflexivity.
Qed.

Lemma load_resolved (lower upper : string -> string)
    (fillna_median : list row -> list row) (df : DataFrame)
    (vib temp curr : string) :
  detect_column lower (columns df) COMMON_VIB = Some vib ->
  detect_column lower (columns df) COMMON_TEMP = Some temp ->
  detect_column lower (columns df) COMMON_CURR = Some curr ->
  let X := fillna_median
             (map (fun i => Row (number_at df vib i) (number_at df temp i)
                                (number_at df curr i))
                  (seq 0 (nrows df))) in
  load_and_prepare lower upper fillna_median df =
  Ok (X, match detect_column lower (columns df) COMMON_LABEL with
         | None => synthesize X
         | Some label => map (fun i => normalize_label upper (text_at df label i))
                             (seq 0 (nrows df))
         end).
Proof. intros Hv Ht Hc. unfold load_and_prepare. now rewrite Hv, Ht, Hc. Qed.

(** C4, as the code has it: when vibration, temperature or current is left
    unresolved, loading (and so training) stops with the one ValueError
    "Could not detect vibration/temp/current columns", whichever fields are
    missing; when all three are resolved and no label column is, nothing is
    raised: the labels are synthesized and encoded. *)
Theorem unresolved_field_raises_fixed_error (lower upper : string -> string)
    (fillna_median : list row -> list row) (df : DataFrame) :
  (Spec.unresolved lower (columns df) <> [] ->
   load_and_prepare lower upper fillna_median df =
     Raise (ValueError "Could not detect vibration/temp/current columns") /\
   train_encode lower upper fillna_median df =
     Raise (ValueError "Could not detect vibration/temp/current columns")) /\
  (Spec.unresolved lower (columns df) = [] ->
   detect_column lower (columns df) COMMON_LABEL = None ->
   exists X,
     load_and_prepare lower upper fillna_median df = Ok (X, synthesize X) /\
     train_encode lower upper fillna_median df = Ok (X, map encode (synthesize X))).
Proof.
  split.
  - intros H. unfold train_encode. rewrite (load_raises _ _ _ _ H). now split.
  - intros H Hl. apply unresolved_nil in H as (vib & temp & curr & Hv & Ht & Hc).
    pose proof (load_resolved lower upper fillna_median df _ _ _ Hv Ht Hc) as E.
    cbv zeta in E. rewrite Hl in E.
    eexists. split; [exact E|]. unfold train_encode. now rewrite E.
Qed.

Lemma unresolved_field_raises_fixed_error_witness :
  (load_and_prepare PyStr.lower PyStr.upper Samples.no_fill Samples.no_vibration =
     Raise (ValueError "Could not detect vibration/temp/current columns") /\
   train_encode PyStr.lower PyStr.upper Samples.no_fill Samples.no_vibration =
     Raise (ValueError "Could not detect vibration/temp/current columns")) /\
  exists X,
    load_and_prepare PyStr.lower PyStr.upper Samples.no_fill Samples.unlabeled =
      Ok (X, synthesize X) /\
    train_encode PyStr.lower PyStr.upper Samples.no_fill Samples.unlabeled =
      Ok (X, map encode (synthesize X)).
Proof.
  split.
  - apply (proj1 (unresolved_field_raises_fixed_error PyStr.lower PyStr.upper
                    Samples.no_fill Samples.no_vibration)).
    vm_compute. discriminate.
  - apply (proj2 (unresolved_field_raises_fixed_error PyStr.lower PyStr.upper
                    Samples.no_fill Samples.unlabeled));
      reflexivity.
Defined.

(** C4 as stated fails: a table without a vibration column and a table
    without a temperature column stop with the same error, so the error does
    not tell which field is unresolved. *)
Lemma error_does_not_name_the_field :
  Spec.unresolved PyStr.lower (columns Samples.no_vibration) = ["vibration"] /\
  Spec.unresolved PyStr.lower (columns Samples.no_temperature) = ["temperature"] /\
  load_and_prepare PyStr.lower PyStr.upper Samples.no_fill Samples.no_vibration =
    Raise (ValueError "Could not detect vibration/temp/current columns") /\
  load_and_prepare PyStr.lower PyStr.upper Samples.no_fill Samples.no_temperature =
    load_and_prepare PyStr.lower PyStr.upper Samples.no_fill Samples.no_vibration.
Proof. repeat split; reflexivity. Qed.




End LoadFacts.

(** *** Dictionaries *)
Module PyDictFacts.
Section Facts.
Context {K V : Type} (keq : K -> K -> bool).
Hypothesis keq_spec : forall a b, keq a b = true <-> a = b.

Lemma get_In (d : PyDict.dict) (k : K) (v : V) :
  PyDict.get keq d k = Some v -> In (k, v) d.
Proof.
  induction d as [|[k' v'] d IH]; simpl; [discriminate|].
  destruct (keq k k') eqn:E.
  - apply keq_spec in E as ->. intros [= ->]. now left.
  - intros H. right. now apply IH.
Qed.

Lemma In_get (d : PyDict.dict) (k : K) (v : V) :
  NoDup (PyDict.keys d) -> In (k, v) d -> PyDict.get keq d k = Some v.
Proof.
  unfold PyDict.keys.
  induction d as [|[k' v'] d IH]; simpl; [intros _ []|].
  intros Hnd [[= -> ->]|Hin].
  - now rewrite (proj2 (keq_spec k k) eq_refl).
  - inversion Hnd as [|? ? Hk Hd]; subst.
    destruct (keq k k') eqn:E; [|now apply IH].
    apply keq_spec in E as ->. exfalso. apply Hk.
    apply in_map_iff. now exists (k', v).
Qed.

Lemma set_In (d : PyDict.dict) (k k0 : K) (v v0 : V) :
  In (k0, v0) (PyDict.set keq d k v) -> (k0, v0) = (k, v) \/ In (k0, v0) d.
Proof.
  induction d as [|[k' v'] d IH]; simpl.
  - intros [H|[]]. now left.
  - destruct (keq k k') eqn:E.
    + apply keq_spec in E as ->. simpl. intros [H|H]; [now left|right; now right].
    + simpl. intros [H|H]; [right; now left|].
      destruct (IH H) as [H'|H']; [now left|right; now right].
Qed.
End Facts.

(** Every entry of the inverted map comes from an entry of the map. *)
Lemma inv_label_map_from (l : list (string * Z)) (acc : PyDict.dict (K:=Z) (V:=string))
    (i : Z) (name : string) :
  In (i, name) (fold_left (fun d kv => PyDict.set Z.eqb d (snd kv) (fst kv)) l acc) ->
  In (i, name) acc \/ In (name, i) l.
Proof.
  revert acc; induction l as [|[n j] l IH]; intros acc; simpl; [now left|].
  intros H. destruct (IH _ H) as [H'|H']; [|right; now right].
  apply (set_In Z.eqb Z.eqb_eq) in H' as [[= -> ->]|H']; [right; now left|now left].
Qed.

Lemma inv_label_map_get (label_map : PyDict.dict (K:=string) (V:=Z)) (i : Z) (name : string) :
  NoDup (PyDict.keys label_map) ->
  PyDict.get Z.eqb (App.inv_label_map label_map) i = Some name ->
  PyDict.get String.eqb label_map name = Some i.
Proof.
  intros Hnd H. apply (get_In Z.eqb Z.eqb_eq) in H.
  apply inv_label_map_from in H as [[]|H].
  now apply (In_get String.eqb String.eqb_eq).
Qed.

End PyDictFacts.

(** *** The persisted label map *)
Module LabelMapFacts.

(** C6: with the label map the trainer persists, every index of 0, 1, 2
    inverts to a name that maps back to it, every one of the three names
    maps to an index that inverts back to it, and no other name shares that
    index. *)
Theorem label_map_round_trip :
  let label_map := snd TrainModel.feature_meta in
  let inv := App.inv_label_map label_map in
  (forall i, In i [0%Z; 1%Z; 2%Z] ->
     exists name, PyDict.get Z.eqb inv i = Some name /\
                  In name Spec.CANONICAL /\
                  PyDict.get String.eqb label_map name = Some i) /\
  (forall name, In name Spec.CANONICAL ->
     exists i, PyDict.get String.eqb label_map name = Some i /\
               In i [0%Z; 1%Z; 2%Z] /\
               PyDict.get Z.eqb inv i = Some name) /\
  (forall i name name',
     PyDict.get Z.eqb inv i = Some name ->
     PyDict.get String.eqb label_map name' = Some i -> name' = name).
Proof.
  cbv zeta. split; [|split].
  - intros i [<-|[<-|[<-|[]]]]; eexists; (split; [reflexivity|]); simpl; auto.
  - intros name [<-|[<-|[<-|[]]]]; eexists; (split; [reflexivity|]); simpl; auto.
  - intros i name name' Hinv Hmap.
    apply (PyDictFacts.get_In String.eqb String.eqb_eq) in Hmap.
    simpl in Hmap.
    destruct Hmap as [[= <- <-]|[[= <- <-]|[[= <- <-]|[]]]];
      vm_compute in Hinv; congruence.
Qed.

Lemma label_map_round_trip_witness :
  (exists name, PyDict.get Z.eqb (App.inv_label_map TrainModel.label_map) 2%Z = Some name /\
                In name Spec.CANONICAL /\
                PyDict.get String.eqb TrainModel.label_map name = Some 2%Z) /\
  (exists i, PyDict.get String.eqb TrainModel.label_map "WARNING" = Some i /\
             In i [0%Z; 1%Z; 2%Z] /\
             PyDict.get Z.eqb (App.inv_label_map TrainModel.label_map) i = Some "WARNING").
Proof.
  destruct label_map_round_trip as (H1 & H2 & _). split.
  - apply H1. simpl. auto.
  - apply H2. simpl. auto.
Defined.

End LabelMapFacts.

(** *** The predictor *)
Module PredictFacts.
Import App.

Lemma Qlt_bool_true (x y : Q) : Qlt_bool x y = true -> x < y.
Proof.
  unfold Qlt_bool. intros H. apply negb_true_iff in H.
  apply Qnot_le_lt. intros Hle. apply Qle_bool_iff in Hle. congruence.
Qed.

Lemma Qlt_bool_false (x y : Q) : Qlt_bool x y = false -> y <= x.
Proof.
  unfold Qlt_bool. intros H. apply negb_false_iff in H. now apply Qle_bool_iff.
Qed.

(** The scan of [np.argmax] and of [max] from a current best entry [b] at
    position [bi], over the entries [r] at positions [i], [i+1], ... *)
Lemma argmax_from_spec (r : list Q) :
  forall (i bi : nat) (b : Q),
    let idx := argmax_from r i bi b in
    let m := max_from r b in
    b <= m /\
    Forall (fun x => x <= m) r /\
    ((idx = bi /\ m = b) \/
     ((i <= idx < i + length r)%nat /\ nth (idx - i) r 0 = m /\ b < m /\
      forall j, (j < idx - i)%nat -> nth j r 0 < m)).
Proof.
  induction r as [|x r IH]; intros i bi b; cbv zeta; simpl.
  - split; [apply Qle_refl|]. split; [constructor|]. now left.
  - destruct (Qlt_bool b x) eqn:E.
    + apply Qlt_bool_true in E.
      specialize (IH (S i) i x). cbv zeta in IH.
      destruct IH as (Hxm & Hall & Hcase).
      split; [apply Qlt_le_weak; eapply Qlt_le_trans; eauto|].
      split; [constructor; assumption|].
      right. destruct Hcase as [[Hi Hm]|(Hr & Hn & Hlt & Hfirst)].
      * rewrite Hi, Hm. replace (i - i)%nat with 0%nat by lia.
        repeat split; try lia; auto.
      * split; [lia|].
        replace (argmax_from r (S i) i x - i)%nat
          with (S (argmax_from r (S i) i x - S i)) by lia.
        split; [exact Hn|]. split; [eapply Qlt_trans; eauto|].
        intros [|j] Hj; [exact Hlt|]. apply Hfirst. lia.
    + apply Qlt_bool_false in E.
      specialize (IH (S i) bi b). cbv zeta in IH.
      destruct IH as (Hbm & Hall & Hcase).
      split; [assumption|].
      split; [constructor; [eapply Qle_trans; eauto|assumption]|].
      destruct Hcase as [[Hi Hm]|(Hr & Hn & Hlt & Hfirst)].
      * left. now split.
      * right. split; [lia|].
        replace (argmax_from r (S i) bi b - i)%nat
          with (S (argmax_from r (S i) bi b - S i)) by lia.
        split; [exact Hn|]. split; [exact Hlt|].
        intros [|j] Hj; [eapply Qle_lt_trans; eauto|]. apply Hfirst. lia.
Qed.

(** [np.argmax] on a non-empty vector: a position of the vector, holding an
    entry no other entry exceeds, strictly above every entry before it, and
    equal to what [max] returns. *)
Lemma argmax_spec (x : Q) (r : list Q) :
  let l := x :: r in
  let idx := argmax_from r 1 0 x in
  argmax l = Ok idx /\ py_max l = Ok (nth idx l 0) /\
  (idx < length l)%nat /\
  (forall j, (j < length l)%nat -> nth j l 0 <= nth idx l 0) /\
  (forall j, (j < idx)%nat -> nth j l 0 < nth idx l 0).
Proof.
  cbv zeta. pose proof (argmax_from_spec r 1 0 x) as H. cbv zeta in H.
  destruct H as (Hxm & Hall & Hcase).
  split; [reflexivity|].
  assert (Hmax : max_from r x = nth (argmax_from r 1 0 x) (x :: r) 0).
  { destruct Hcase as [[-> ->]|(Hr & Hn & _)]; [reflexivity|].
    destruct (argmax_from r 1 0 x) as [|k]; [lia|].
    simpl. rewrite <- Hn. f_equal. lia. }
  split; [simpl; now rewrite Hmax|].
  split; [destruct Hcase as [[-> _]|(Hr & _)]; simpl; lia|].
  rewrite <- Hmax. split.
  - intros [|j] Hj; simpl; [exact Hxm|].
    simpl in Hj. rewrite Forall_forall in Hall. apply Hall, nth_In. lia.
  - intros j Hj. destruct Hcase as [[Hi _]|(Hr & _ & Hlt & Hfirst)]; [lia|].
    destruct j as [|j]; simpl; [exact Hlt|]. apply Hfirst. lia.
Qed.

Lemma predict_unfold (art : Artifacts) (v t c : reading) (x : Q) (r : list Q) :
  predict_proba art (scaler_transform art [v; t; c]) = x :: r ->
  predict art v t c =
  match PyDict.get Z.eqb (inv_label_map (meta_label_map art))
                   (Z.of_nat (argmax_from r 1 0 x)) with
  | Some status =>
      match risk_of (x :: r) with
      | Ok risk => Ok (status, risk)
      | Raise e => Raise e
      end
  | None => Raise (KeyError (Z.of_nat (argmax_from r 1 0 x)))
  end.
Proof.
  intros E. unfold predict. rewrite E. simpl.
  destruct (PyDict.get Z.eqb _ _); reflexivity.
Qed.

(** X26: with the label map the trainer persists and a probability vector
    of one to three entries, the prediction step returns a status and a
    risk; the status is the name whose index is the position of the largest
    entry (the first such position), whatever class the classifier's column
    at that position stands for, and the risk is the entry at position 2,
    the index of CRITICAL, when the vector has more than two entries, and
    the largest entry otherwise. *)
Theorem predict_selects_max_class (art : Artifacts) (v t c : reading) :
  meta_label_map art = TrainModel.label_map ->
  let proba := predict_proba art (scaler_transform art [v; t; c]) in
  (1 <= length proba <= 3)%nat ->
  exists idx status risk,
    predict art v t c = Ok (status, risk) /\
    (idx < length proba)%nat /\
    (forall j, (j < length proba)%nat -> nth j proba 0 <= nth idx proba 0) /\
    (forall j, (j < idx)%nat -> nth j proba 0 < nth idx proba 0) /\
    PyDict.get String.eqb TrainModel.label_map status = Some (Z.of_nat idx) /\
    ((2 < length proba)%nat ->
     PyDict.get String.eqb TrainModel.label_map "CRITICAL" = Some 2%Z /\
     risk = nth 2 proba 0) /\
    ((length proba <= 2)%nat -> risk = nth idx proba 0).
Proof.
  intros Hmeta proba Hlen. subst proba.
  destruct (predict_proba art (scaler_transform art [v; t; c])) as [|x r] eqn:E;
    [simpl in Hlen; lia|].
  pose proof (argmax_spec x r) as H. cbv zeta in H.
  destruct H as (_ & Hmax & Hidx & Hall & Hfirst).
  rewrite (predict_unfold art v t c x r E), Hmeta.
  set (idx := argmax_from r 1 0 x) in *.
  assert (Hrisk : risk_of (x :: r) =
                  Ok (if (2 <? length (x :: r))%nat then nth 2 (x :: r) 0
                      else nth idx (x :: r) 0)).
  { unfold risk_of. destruct (2 <? length (x :: r))%nat; [reflexivity|exact Hmax]. }
  rewrite Hrisk.
  assert (Hlt3 : (idx < 3)%nat) by lia.
  exists idx.
  destruct idx as [|[|[|k]]]; [| | |lia]; simpl PyDict.get;
    eexists; eexists; (split; [reflexivity|]);
    (split; [exact Hidx|]); (split; [exact Hall|]); (split; [exact Hfirst|]);
    (split; [reflexivity|]); split; intros Hl.
  all: try (split; [reflexivity|]).
  all: try (apply Nat.ltb_lt in Hl; rewrite Hl; reflexivity).
  all: assert (Hf : (2 <? length (x :: r))%nat = false) by (apply Nat.ltb_ge; lia);
    rewrite Hf; reflexivity.
Qed.

Lemma predict_selects_max_class_witness :
  exists idx status risk,
    predict Samples.trained (Finite (inject_Z 3)) (Finite (inject_Z 35))
            (Finite (inject_Z 6)) = Ok (status, risk) /\
    (idx < 3)%nat /\
    PyDict.get String.eqb TrainModel.label_map status = Some (Z.of_nat idx).
Proof.
  destruct (predict_selects_max_class Samples.trained (Finite (inject_Z 3))
              (Finite (inject_Z 35)) (Finite (inject_Z 6)) eq_refl)
    as (idx & status & risk & H1 & H2 & _ & _ & H5 & _).
  - simpl. lia.
  - exists idx, status, risk. split; [exact H1|]. split; [exact H2|exact H5].
Defined.

(** C3: the code names the position of the largest probability, not its
    class.  A table whose labels are ok and fail only is encoded with the
    indices 0 and 2, so a classifier fitted on it has the classes 0 and 2,
    in that order, as its two columns.  When it gives the second column
    0.9, the class of maximum probability is 2, CRITICAL, but the status
    the code returns is the name of index 1, WARNING. *)
Theorem status_follows_position_not_class (v t c : reading) :
  (exists X,
     TrainModel.train_encode PyStr.lower PyStr.upper Samples.no_fill Samples.ok_or_fail
     = Ok (X, [Some 0%Z; Some 2%Z; Some 0%Z; Some 2%Z])) /\
  TrainModel.classes_ [0%Z; 2%Z; 0%Z; 2%Z] = [0%Z; 2%Z] /\
  predict_proba Samples.trained_on_two
    (scaler_transform Samples.trained_on_two [v; t; c]) = [1 # 10; 9 # 10] /\
  argmax [1 # 10; 9 # 10] = Ok 1%nat /\
  nth 1 (TrainModel.classes_ [0%Z; 2%Z; 0%Z; 2%Z]) 0%Z = 2%Z /\
  PyDict.get Z.eqb (inv_label_map (meta_label_map Samples.trained_on_two)) 2%Z
    = Some "CRITICAL" /\
  predict Samples.trained_on_two v t c = Ok ("WARNING", 9 # 10).
Proof.
  split; [eexists; reflexivity|]. repeat split; reflexivity.
Qed.

(** C10: when the probability vector has more than two entries the risk is
    the entry at position 2 whatever label map the metadata holds: the
    predictor returns it with the status whenever the status lookup
    succeeds.  It is the CRITICAL entry when the label map gives CRITICAL
    the index 2; when the label map gives CRITICAL another index, the name
    at index 2, whose entry the risk is, is a class other than CRITICAL. *)
Theorem risk_is_entry_two
    (scale : list reading -> list reading) (proba_of : list reading -> list Q)
    (label_map : PyDict.dict (K:=string) (V:=Z)) (v t c : reading) :
  let proba := proba_of (scale [v; t; c]) in
  let art := {| scaler_transform := scale; predict_proba := proba_of;
                meta_label_map := label_map |} in
  (2 < length proba)%nat ->
  risk_of proba = Ok (nth 2 proba 0) /\
  (exists idx, argmax proba = Ok idx /\
     predict art v t c =
     match PyDict.get Z.eqb (inv_label_map label_map) (Z.of_nat idx) with
     | Some status => Ok (status, nth 2 proba 0)
     | None => Raise (KeyError (Z.of_nat idx))
     end) /\
  (forall k, PyDict.get String.eqb label_map "CRITICAL" = Some k ->
     (k = 2%Z -> nth 2 proba 0 = nth (Z.to_nat k) proba 0) /\
     (k <> 2%Z -> NoDup (PyDict.keys label_map) ->
      forall name, PyDict.get Z.eqb (inv_label_map label_map) 2%Z = Some name ->
                   name <> "CRITICAL" /\
                   PyDict.get String.eqb label_map name = Some 2%Z)).
Proof.
  intros proba art Hlen.
  assert (Hrisk : risk_of proba = Ok (nth 2 proba 0)).
  { unfold risk_of. apply Nat.ltb_lt in Hlen. now rewrite Hlen. }
  split; [exact Hrisk|]. split.
  - destruct proba as [|x r] eqn:E; [simpl in Hlen; lia|].
    exists (argmax_from r 1 0 x). split; [reflexivity|].
    rewrite (predict_unfold art v t c x r E). simpl meta_label_map.
    rewrite Hrisk. reflexivity.
  - intros k Hk. split; [intros ->; reflexivity|].
    intros Hne Hnd name Hname.
    pose proof (PyDictFacts.inv_label_map_get label_map 2%Z name Hnd Hname) as Hback.
    split; [|exact Hback]. intros ->. congruence.
Qed.

Lemma risk_is_entry_two_witness :
  predict {| scaler_transform := Samples.no_scaling;
             predict_proba := Samples.mostly_first;
             meta_label_map := Samples.critical_first |}
          (Finite (inject_Z 3)) (Finite (inject_Z 35)) (Finite (inject_Z 6))
  = Ok ("CRITICAL", 1 # 10) /\
  PyDict.get String.eqb Samples.critical_first "CRITICAL" = Some 0%Z /\
  nth 0 (Samples.mostly_first []) 0 = 7 # 10.
Proof.
  destruct (risk_is_entry_two Samples.no_scaling Samples.mostly_first
              Samples.critical_first (Finite (inject_Z 3)) (Finite (inject_Z 35))
              (Finite (inject_Z 6))) as (_ & (idx & Hidx & Hp) & _).
  - simpl. lia.
  - injection Hidx as <-. split; [exact Hp|]. split; reflexivity.
Defined.

End PredictFacts.

(** *** The hypothesis generator and the history *)
Module SessionFacts.
Import App.

Section Rendering.
Variable str_float : reading -> string.
Variable fmt_3f : Q -> string.
Variable csv_field : cell -> string.

Lemma generate_hypothesis_total (env : Env) (v t c : reading) (status : string)
    (risk : Q) :
  exists text, generate_hypothesis str_float fmt_3f env v t c status risk = Ok text.
Proof.
  unfold generate_hypothesis.
  destruct (GEMINI_API_KEY env) as [[|a key]|]; try (eexists; reflexivity).
  destruct (ask_gemini _ _ _); eexists; reflexivity.
Qed.

Lemma generate_hypothesis_no_key (env : Env) (v t c : reading) (status : string)
    (risk : Q) :
  GEMINI_API_KEY env = None \/ GEMINI_API_KEY env = Some "" ->
  generate_hypothesis str_float fmt_3f env v t c status risk = Ok FALLBACK_NO_KEY.
Proof. unfold generate_hypothesis. intros [-> | ->]; reflexivity. Qed.

Lemma generate_hypothesis_error (env : Env) (v t c : reading) (status : string)
    (risk : Q) (key : string) (e : exception) :
  GEMINI_API_KEY env = Some key -> key <> "" ->
  generate_content env key (prompt_of str_float fmt_3f v t c status risk) = Raise e ->
  generate_hypothesis str_float fmt_3f env v t c status risk = Ok (fallback_error e).
Proof.
  unfold generate_hypothesis, ask_gemini. intros -> Hkey Hcall.
  destruct key as [|a key]; [now destruct Hkey|].
  now rewrite Hcall.
Qed.

Lemma analyze_appends (env : Env) (art : Artifacts) (v t c : reading)
    (history : list HistoryRecord) (status : string) (risk : Q) :
  predict art v t c = Ok (status, risk) ->
  exists text,
    generate_hypothesis str_float fmt_3f env v t c status risk = Ok text /\
    analyze str_float fmt_3f env art v t c history =
    Ok (history ++ [{| timestamp := time_now env; vibration := v; temperature := t;
                       current := c; status := status; risk := risk;
                       hypothesis := text |}])%list.
Proof.
  intros Hp.
  destruct (generate_hypothesis_total env v t c status risk) as [text Ht].
  exists text. split; [exact Ht|].
  unfold analyze. rewrite Hp. simpl. rewrite Ht. reflexivity.
Qed.

End Rendering.

(** C7, as the code has it: the generator always returns a text and never
    raises.  Without an API key (unset or empty) the text is the fixed
    fallback, which names vibration, temperature and current.  When the
    service call raises, the text is the error's message set in a second,
    generic fallback, so it varies with the error.  Whenever the predictor
    returned, the analysis completes and appends one record holding the
    generated text to the history. *)
Theorem hypothesis_falls_back_without_raising
    (str_float : reading -> string) (fmt_3f : Q -> string)
    (env : Env) (v t c : reading) (status : string) (risk : Q) :
  (exists text, generate_hypothesis str_float fmt_3f env v t c status risk = Ok text) /\
  (GEMINI_API_KEY env = None \/ GEMINI_API_KEY env = Some "" ->
   generate_hypothesis str_float fmt_3f env v t c status risk = Ok FALLBACK_NO_KEY) /\
  (Spec.mentions FALLBACK_NO_KEY "vibration" = true /\
   Spec.mentions FALLBACK_NO_KEY "temperature" = true /\
   Spec.mentions FALLBACK_NO_KEY "current" = true) /\
  (forall key e,
     GEMINI_API_KEY env = Some key -> key <> "" ->
     generate_content env key (prompt_of str_float fmt_3f v t c status risk) = Raise e ->
     generate_hypothesis str_float fmt_3f env v t c status risk =
     Ok (fallback_error e)) /\
  (forall art history,
     predict art v t c = Ok (status, risk) ->
     exists text,
       generate_hypothesis str_float fmt_3f env v t c status risk = Ok text /\
       analyze str_float fmt_3f env art v t c history =
       Ok (history ++ [{| timestamp := time_now env; vibration := v;
                          temperature := t; current := c; status := status;
                          risk := risk; hypothesis := text |}])%list).
Proof.
  split; [apply generate_hypothesis_total|].
  split; [apply generate_hypothesis_no_key|].
  split; [repeat split; vm_compute; reflexivity|].
  split.
  - intros key e. apply generate_hypothesis_error.
  - intros art history. apply analyze_appends.
Qed.

Lemma hypothesis_falls_back_without_raising_witness :
  generate_hypothesis Samples.show_float Samples.show_3f Samples.env_no_key
    (Finite (inject_Z 3)) (Finite (inject_Z 35)) (Finite (inject_Z 6))
    "HEALTHY" (1 # 10) = Ok FALLBACK_NO_KEY /\
  generate_hypothesis Samples.show_float Samples.show_3f (Samples.env_raising "timeout")
    (Finite (inject_Z 3)) (Finite (inject_Z 35)) (Finite (inject_Z 6))
    "HEALTHY" (1 # 10) = Ok (fallback_error (Exception "timeout")) /\
  exists text,
    analyze Samples.show_float Samples.show_3f (Samples.env_raising "timeout")
      Samples.trained (Finite (inject_Z 3)) (Finite (inject_Z 35)) (Finite (inject_Z 6))
      [] = Ok [{| timestamp := 1700000000%Z; vibration := Finite (inject_Z 3);
                  temperature := Finite (inject_Z 35); current := Finite (inject_Z 6);
                  status := "HEALTHY"; risk := 1 # 10; hypothesis := text |}].
Proof.
  split; [|split].
  - apply (hypothesis_falls_back_without_raising Samples.show_float Samples.show_3f
             Samples.env_no_key). now left.
  - destruct (hypothesis_falls_back_without_raising Samples.show_float Samples.show_3f
                (Samples.env_raising "timeout") (Finite (inject_Z 3))
                (Finite (inject_Z 35)) (Finite (inject_Z 6)) "HEALTHY" (1 # 10))
      as (_ & _ & _ & H & _).
    apply (H "key"); [reflexivity|discriminate|reflexivity].
  - destruct (hypothesis_falls_back_without_raising Samples.show_float Samples.show_3f
                (Samples.env_raising "timeout") (Finite (inject_Z 3))
                (Finite (inject_Z 35)) (Finite (inject_Z 6)) "HEALTHY" (1 # 10))
      as (_ & _ & _ & _ & H).
    destruct (H Samples.trained [] eq_refl) as (text & _ & Ha).
    exists text. exact Ha.
Defined.

(** C7 as stated fails: when the service call raises, the text returned is
    not the fixed fallback; it changes with the error's message and names
    none of vibration, temperature, current. *)
Lemma error_fallback_is_not_the_fixed_text :
  generate_hypothesis Samples.show_float Samples.show_3f (Samples.env_raising "timeout")
    (Finite (inject_Z 3)) (Finite (inject_Z 35)) (Finite (inject_Z 6))
    "HEALTHY" (1 # 10) = Ok (fallback_error (Exception "timeout")) /\
  fallback_error (Exception "timeout") <> FALLBACK_NO_KEY /\
  fallback_error (Exception "timeout") <> fallback_error (Exception "quota") /\
  Spec.mentions (fallback_error (Exception "timeout")) "vibration" = false /\
  Spec.mentions (fallback_error (Exception "timeout")) "temperature" = false /\
  Spec.mentions (fallback_error (Exception "timeout")) "current" = false.
Proof.
  split; [reflexivity|].
  split; [vm_compute; discriminate|].
  split; [vm_compute; discriminate|].
  repeat split; vm_compute; reflexivity.
Qed.

(** C8: clearing the history leaves the empty sequence of records, and the
    table built from it has exactly the columns timestamp, vibration,
    temperature, current, status, risk, hypothesis and no rows; written as
    CSV it is the header row alone, whatever the cell writer. *)
Theorem cleared_history_has_header_only_table
    (csv_field : cell -> string) (history : list HistoryRecord) :
  clear_history history = [] /\
  history_df (clear_history history) =
    {| tcolumns := ["timestamp"; "vibration"; "temperature"; "current"; "status";
                    "risk"; "hypothesis"];
       trows := [] |} /\
  to_csv csv_field (history_df (clear_history history)) =
    "timestamp,vibration,temperature,current,status,risk,hypothesis" ++ nl.
Proof. repeat split; reflexivity. Qed.

End SessionFacts.

(** *** More on the column detector *)
Module DetectMore.
Import TrainModel.

Lemma scan_cols_sound (test : string -> string -> bool) (c : string)
    (cols : list string) (col : string) :
  scan_cols test c cols = Some col -> In col cols /\ test c col = true.
Proof.
  intros H. apply DetectFacts.scan_cols_Some in H as (j & Hj & Ht & _).
  split; [eapply nth_error_In; eauto|exact Ht].
Qed.

Lemma scan_candidates_sound (test : string -> string -> bool)
    (candidates cols : list string) (col : string) :
  scan_candidates test candidates cols = Some col ->
  In col cols /\ exists c, In c candidates /\ test c col = true.
Proof.
  intros H. apply DetectFacts.scan_candidates_Some in H
    as (i & j & c & Hi & Hj & Ht & _).
  split; [eapply nth_error_In; eauto|].
  exists c. split; [eapply nth_error_In; eauto|exact Ht].
Qed.

Lemma scan_candidates_complete (test : string -> string -> bool)
    (candidates cols : list string) (c col : string) :
  In c candidates -> In col cols -> test c col = true ->
  exists col', scan_candidates test candidates cols = Some col'.
Proof.
  intros Hc Hcol Ht.
  destruct (scan_candidates test candidates cols) as [col'|] eqn:E; [eauto|].
  apply DetectFacts.scan_candidates_None in E.
  rewrite (E c col Hc Hcol) in Ht. discriminate.
Qed.

(** X1: a detected column is one of the given column names, and some
    candidate occurs in it, letter case aside; the detector never returns a
    name that is not in the table. *)
Theorem detect_column_sound (lower : string -> string)
    (cols candidates : list string) (col : string) :
  detect_column lower cols candidates = Some col ->
  In col cols /\ exists c, In c candidates /\ ci_within lower c col = true.
Proof.
  unfold detect_column.
  destruct (scan_candidates (ci_equal lower) candidates cols) as [col0|] eqn:E.
  - intros [= <-]. apply scan_candidates_sound in E as (Hin & c & Hc & Ht).
    split; [exact Hin|]. exists c. split; [exact Hc|].
    now apply DetectFacts.ci_equal_within.
  - apply scan_candidates_sound.
Qed.

Lemma detect_column_sound_witness :
  In "Temp_C" ["id"; "Temp_C"; "amps"] /\
  exists c, In c COMMON_TEMP /\ ci_within PyStr.lower c "Temp_C" = true.
Proof.
  apply (detect_column_sound PyStr.lower ["id"; "Temp_C"; "amps"] COMMON_TEMP "Temp_C").
  reflexivity.
Defined.

(** X2: when some column equals some candidate, letter case aside, the
    detector returns a column that equals a candidate, letter case aside: a
    column that merely contains a candidate never takes its place, whatever
    the order of the columns and of the candidates. *)
Theorem exact_match_has_priority (lower : string -> string)
    (cols candidates : list string) (c0 col0 : string) :
  In c0 candidates -> In col0 cols -> ci_equal lower c0 col0 = true ->
  exists col c,
    detect_column lower cols candidates = Some col /\
    In col cols /\ In c candidates /\ ci_equal lower c col = true.
Proof.
  intros Hc Hcol Ht. unfold detect_column.
  destruct (scan_candidates_complete (ci_equal lower) candidates cols c0 col0 Hc Hcol Ht)
    as [col E].
  rewrite E. apply scan_candidates_sound in E as (Hin & c & Hcin & Hct).
  exists col, c. auto.
Qed.

Lemma exact_match_has_priority_witness :
  exists col c,
    detect_column PyStr.lower ["temperature_setpoint"; "TEMP"] COMMON_TEMP = Some col /\
    In col ["temperature_setpoint"; "TEMP"] /\ In c COMMON_TEMP /\
    ci_equal PyStr.lower c col = true.
Proof.
  apply (exact_match_has_priority PyStr.lower ["temperature_setpoint"; "TEMP"] COMMON_TEMP
           "temp" "TEMP"); simpl; auto.
Defined.

Lemma scan_cols_case (lower : string -> string)
    (test test' : string -> string -> bool) (c c' : string)
    (cols cols' : list string) :
  Forall2 (fun a b => test c a = test' c' b) cols cols' ->
  Forall2 (fun a b => lower a = lower b) cols cols' ->
  option_map lower (scan_cols test c cols) =
  option_map lower (scan_cols test' c' cols').
Proof.
  intros H. induction H as [|a b cols cols' Hab H IH]; intros Hl; simpl;
    [reflexivity|].
  inversion Hl; subst. rewrite Hab.
  destruct (test' c' b); simpl; [congruence|auto].
Qed.

Lemma Forall2_lower_test (lower : string -> string)
    (test : string -> string -> bool) (c c' : string)
    (cols cols' : list string) :
  (forall a b, lower a = lower b -> test c a = test c' b) ->
  Forall2 (fun a b => lower a = lower b) cols cols' ->
  Forall2 (fun a b => test c a = test c' b) cols cols'.
Proof.
  intros Ht H. induction H; constructor; auto.
Qed.

Lemma scan_candidates_case (lower : string -> string)
    (test : string -> string -> bool)
    (candidates candidates' cols cols' : list string) :
  (forall c c' a b, lower c = lower c' -> lower a = lower b ->
                    test c a = test c' b) ->
  Forall2 (fun c c' => lower c = lower c') candidates candidates' ->
  Forall2 (fun a b => lower a = lower b) cols cols' ->
  option_map lower (scan_candidates test candidates cols) =
  option_map lower (scan_candidates test candidates' cols').
Proof.
  intros Ht Hc Hcols. induction Hc as [|c c' cs cs' Hcc Hc IH]; simpl; [reflexivity|].
  pose proof (scan_cols_case lower test test c c' cols cols'
                (Forall2_lower_test lower test c c' cols cols'
                   (fun a b => Ht c c' a b Hcc) Hcols) Hcols) as E.
  destruct (scan_cols test c cols), (scan_cols test c' cols'); simpl in *;
    try discriminate; auto.
Qed.

(** X3: the detector does not look at letter case.  Two tables whose column
    names agree up to letter case, searched with candidate lists that agree
    up to letter case, give the same answer up to letter case: both find
    nothing, or both find columns that differ in letter case only. *)
Theorem detect_column_ignores_case (lower : string -> string)
    (cols cols' candidates candidates' : list string) :
  Forall2 (fun a b => lower a = lower b) cols cols' ->
  Forall2 (fun c c' => lower c = lower c') candidates candidates' ->
  option_map lower (detect_column lower cols candidates) =
  option_map lower (detect_column lower cols' candidates').
Proof.
  intros Hcols Hc. unfold detect_column.
  pose proof (scan_candidates_case lower (ci_equal lower) candidates candidates' cols cols') as E1.
  pose proof (scan_candidates_case lower (ci_within lower) candidates candidates' cols cols') as E2.
  assert (H1 : forall c c' a b, lower c = lower c' ->
                 lower a = lower b -> ci_equal lower c a = ci_equal lower c' b)
    by (unfold ci_equal; intros; congruence).
  assert (H2 : forall c c' a b, lower c = lower c' ->
                 lower a = lower b -> ci_within lower c a = ci_within lower c' b)
    by (unfold ci_within; intros; congruence).
  specialize (E1 H1 Hc Hcols). specialize (E2 H2 Hc Hcols).
  destruct (scan_candidates (ci_equal lower) candidates cols),
    (scan_candidates (ci_equal lower) candidates' cols'); simpl in *;
    try discriminate; auto.
Qed.

Lemma detect_column_ignores_case_witness :
  option_map PyStr.lower (detect_column PyStr.lower ["ID"; "Vib_RMS"] ["VIB"]) =
  option_map PyStr.lower (detect_column PyStr.lower ["id"; "vib_rms"] ["vib"]).
Proof.
  apply detect_column_ignores_case; repeat constructor.
Defined.

End DetectMore.

(** *** More on loading, labels and the synthesizer *)
Module TrainMore.
Import TrainModel.

Lemma first_candidate_exact (lower : string -> string)
    (cols rest : list string) (c col : string) :
  In col cols -> lower col = lower c ->
  exists col', detect_column lower cols (c :: rest) = Some col' /\
               In col' cols /\ lower col' = lower c.
Proof.
  intros Hin Hl. unfold detect_column. simpl.
  destruct (scan_cols (ci_equal lower) c cols) as [col'|] eqn:E.
  - exists col'. split; [reflexivity|].
    apply DetectMore.scan_cols_sound in E as [Hin' Ht].
    split; [exact Hin'|]. unfold ci_equal in Ht.
    apply String.eqb_eq in Ht. congruence.
  - exfalso. pose proof (proj1 (DetectFacts.scan_cols_None (ci_equal lower) c cols) E col Hin)
      as H.
    unfold ci_equal in H. rewrite Hl, String.eqb_refl in H. discriminate.
Qed.

(** X4: a table that has columns named vibration, temperature and current
    in any letter case (columns whose lowercase form is that of the
    canonical name) loads without error, whatever other columns it has and
    in whatever order; the three fields resolve to columns carrying exactly
    those names, letter case aside, not to columns that only contain
    them. *)
Theorem canonical_names_load (lower upper : string -> string)
    (fillna_median : list row -> list row) (df : DataFrame)
    (cv ct cc : string) :
  In cv (columns df) -> lower cv = lower "vibration" ->
  In ct (columns df) -> lower ct = lower "temperature" ->
  In cc (columns df) -> lower cc = lower "current" ->
  exists vib temp curr X y,
    detect_column lower (columns df) COMMON_VIB = Some vib /\
    lower vib = lower "vibration" /\
    detect_column lower (columns df) COMMON_TEMP = Some temp /\
    lower temp = lower "temperature" /\
    detect_column lower (columns df) COMMON_CURR = Some curr /\
    lower curr = lower "current" /\
    load_and_prepare lower upper fillna_median df = Ok (X, y).
Proof.
  intros Hv Hlv Ht Hlt Hc Hlc.
  destruct (first_candidate_exact lower (columns df) ["vib"; "vibration_mm_s"] "vibration" cv
              Hv Hlv) as (vib & Ev & _ & Lv).
  destruct (first_candidate_exact lower (columns df) ["temp"; "temp_c"] "temperature" ct
              Ht Hlt) as (temp & Et & _ & Lt).
  destruct (first_candidate_exact lower (columns df) ["motor_current"; "amps"] "current" cc
              Hc Hlc) as (curr & Ec & _ & Lc).
  exists vib, temp, curr.
  pose proof (LoadFacts.load_resolved lower upper fillna_median df vib temp curr
                Ev Et Ec) as E.
  cbv zeta in E. eexists. eexists.
  repeat (split; [eassumption|]). exact E.
Qed.

Lemma canonical_names_load_witness :
  exists vib temp curr X y,
    detect_column PyStr.lower ["Current"; "vibration_rms"; "TEMPERATURE"; "Vibration"] COMMON_VIB
      = Some vib /\ PyStr.lower vib = "vibration" /\
    detect_column PyStr.lower ["Current"; "vibration_rms"; "TEMPERATURE"; "Vibration"] COMMON_TEMP
      = Some temp /\ PyStr.lower temp = "temperature" /\
    detect_column PyStr.lower ["Current"; "vibration_rms"; "TEMPERATURE"; "Vibration"] COMMON_CURR
      = Some curr /\ PyStr.lower curr = "current" /\
    load_and_prepare PyStr.lower PyStr.upper Samples.no_fill
      (Samples.frame ["Current"; "vibration_rms"; "TEMPERATURE"; "Vibration"] 1
                     (Finite (inject_Z 1)) "") = Ok (X, y).
Proof.
  apply (canonical_names_load PyStr.lower PyStr.upper Samples.no_fill
           (Samples.frame ["Current"; "vibration_rms"; "TEMPERATURE"; "Vibration"] 1
                          (Finite (inject_Z 1)) "")
           "Vibration" "TEMPERATURE" "Current"); simpl; auto.
Defined.

(** X5: when the three numeric fields resolve and the imputation keeps the
    number of rows, loading returns a feature table and a label column that
    both have one entry per row of the CSV, with or without a label column
    in it. *)
Theorem features_and_labels_aligned (lower upper : string -> string)
    (fillna_median : list row -> list row) (df : DataFrame) :
  (forall X, length (fillna_median X) = length X) ->
  Spec.unresolved lower (columns df) = [] ->
  exists X y,
    load_and_prepare lower upper fillna_median df = Ok (X, y) /\
    length X = nrows df /\ length y = nrows df.
Proof.
  intros Hfill H.
  apply LoadFacts.unresolved_nil in H as (vib & temp & curr & Hv & Ht & Hc).
  pose proof (LoadFacts.load_resolved lower upper fillna_median df vib temp curr
                Hv Ht Hc) as E.
  cbv zeta in E. eexists. eexists. split; [exact E|].
  assert (HX : length (fillna_median
                         (map (fun i => Row (number_at df vib i) (number_at df temp i)
                                            (number_at df curr i))
                              (seq 0 (nrows df)))) = nrows df)
    by now rewrite Hfill, length_map, length_seq.
  split; [exact HX|].
  destruct (detect_column lower (columns df) COMMON_LABEL).
  - now rewrite length_map, length_seq.
  - now rewrite SynthesisFacts.synthesize_map, length_map.
Qed.

Lemma features_and_labels_aligned_witness :
  exists X y,
    load_and_prepare PyStr.lower PyStr.upper Samples.no_fill Samples.labeled_broken = Ok (X, y) /\
    length X = 2%nat /\ length y = 2%nat.
Proof.
  apply (features_and_labels_aligned PyStr.lower PyStr.upper Samples.no_fill
           Samples.labeled_broken);
    reflexivity.
Defined.

End TrainMore.

(** *** More on label values and on the thresholds *)
Module LabelMore.
Import TrainModel.

(** The index a raw label value is given, read off its uppercase form. *)
Lemma encode_normalize (upper : string -> string) (s : string) :
  encode (normalize_label upper s) =
  let u := upper s in
  if existsb (String.eqb u) ["HEALTHY"; "OK"; "GOOD"] then Some 0%Z
  else if String.eqb u "WARNING" then Some 1%Z
  else if existsb (String.eqb u) ["CRITICAL"; "BAD"; "FAIL"] then Some 2%Z
  else None.
Proof.
  rewrite LoadFacts.normalize_canonicalize. unfold Spec.canonicalize. cbv zeta.
  destruct (String.eqb_spec (upper s) "OK") as [->|H1]; [reflexivity|].
  destruct (String.eqb_spec (upper s) "GOOD") as [->|H2]; [reflexivity|].
  destruct (String.eqb_spec (upper s) "BAD") as [->|H3]; [reflexivity|].
  destruct (String.eqb_spec (upper s) "FAIL") as [->|H4]; [reflexivity|].
  unfold encode, label_map. simpl.
  apply String.eqb_neq in H1, H2, H3, H4. rewrite H1, H2, H3, H4. simpl.
  destruct (String.eqb (upper s) "HEALTHY"); [reflexivity|].
  destruct (String.eqb (upper s) "WARNING"); [reflexivity|].
  destruct (String.eqb (upper s) "CRITICAL"); reflexivity.
Qed.

(** X6: the index of a raw label value is decided by the uppercase form
    that [str.upper] gives it, whatever that mapping does to the value: 0
    when the form is HEALTHY, OK or GOOD, 1 when it is WARNING, 2 when it is
    CRITICAL, BAD or FAIL, and a missing value exactly when it is none of
    these seven words; nothing is trimmed, so a word with a space around it
    is none of them. *)
Theorem accepted_label_words (upper : string -> string) (s : string) :
  (encode (normalize_label upper s) = Some 0%Z <->
   In (upper s) ["HEALTHY"; "OK"; "GOOD"]) /\
  (encode (normalize_label upper s) = Some 1%Z <-> upper s = "WARNING") /\
  (encode (normalize_label upper s) = Some 2%Z <->
   In (upper s) ["CRITICAL"; "BAD"; "FAIL"]) /\
  (encode (normalize_label upper s) = None <->
   ~ In (upper s) ["HEALTHY"; "OK"; "GOOD"; "WARNING"; "CRITICAL"; "BAD"; "FAIL"]).
Proof.
  rewrite encode_normalize. cbv zeta. simpl existsb.
  destruct (String.eqb_spec (upper s) "HEALTHY") as [->|H1];
    [simpl; repeat split; try discriminate; intuition discriminate|].
  destruct (String.eqb_spec (upper s) "OK") as [->|H2];
    [simpl; repeat split; try discriminate; intuition discriminate|].
  destruct (String.eqb_spec (upper s) "GOOD") as [->|H3];
    [simpl; repeat split; try discriminate; intuition discriminate|].
  destruct (String.eqb_spec (upper s) "WARNING") as [->|H4];
    [simpl; repeat split; try discriminate; intuition discriminate|].
  destruct (String.eqb_spec (upper s) "CRITICAL") as [->|H5];
    [simpl; repeat split; try discriminate; intuition discriminate|].
  destruct (String.eqb_spec (upper s) "BAD") as [->|H6];
    [simpl; repeat split; try discriminate; intuition discriminate|].
  destruct (String.eqb_spec (upper s) "FAIL") as [->|H7];
    [simpl; repeat split; try discriminate; intuition discriminate|].
  simpl. repeat split; try discriminate; intuition congruence.
Qed.

Lemma accepted_label_words_witness :
  encode (normalize_label PyStr.upper "Good") = Some 0%Z /\
  encode (normalize_label PyStr.upper "fail") = Some 2%Z /\
  encode (normalize_label PyStr.upper " ok") = None.
Proof.
  split; [|split].
  - apply (proj1 (accepted_label_words PyStr.upper "Good")). simpl. auto.
  - apply (proj1 (proj2 (proj2 (accepted_label_words PyStr.upper "fail")))).
    simpl. auto.
  - apply (proj2 (proj2 (proj2 (accepted_label_words PyStr.upper " ok")))).
    simpl. intuition discriminate.
Defined.

End LabelMore.

(** *** Thresholds: the synthesizer and the maintenance advice *)
Module ThresholdMore.
Import TrainModel.

Lemma gt_int_true (q : Q) (k : Z) : gt_int (Finite q) k = true <-> inject_Z k < q.
Proof.
  simpl. rewrite negb_true_iff. split.
  - intros H. apply Qnot_le_lt. intros Hle. apply Qle_bool_iff in Hle. congruence.
  - intros H. destruct (Qle_bool q (inject_Z k)) eqn:E; [|reflexivity].
    apply Qle_bool_iff in E. exfalso. eapply Qlt_not_le; eauto.
Qed.

Lemma gt_int_false (q : Q) (k : Z) : gt_int (Finite q) k = false <-> q <= inject_Z k.
Proof.
  simpl. rewrite negb_false_iff. apply Qle_bool_iff.
Qed.

Lemma gt_int_mono (q q' : Q) (k : Z) :
  q <= q' -> gt_int (Finite q) k = true -> gt_int (Finite q') k = true.
Proof.
  intros Hle H. apply gt_int_true in H. apply gt_int_true.
  eapply Qlt_le_trans; eauto.
Qed.

Lemma encode_row_label (r : row) :
  encode (row_label r) = Some (Z.of_nat (Nat.min 2 (row_score r))).
Proof.
  rewrite SynthesisFacts.row_label_of_score.
  destruct (row_score r) as [|[|[|n]]]; reflexivity.
Qed.

(** X8: the thresholds are strict.  A row of finite readings is labelled
    HEALTHY exactly when v <= 6, t <= 70 and c <= 12, so readings that sit
    on a threshold do not count, and CRITICAL exactly when at least two of
    v > 6, t > 70, c > 12 hold. *)
Theorem label_by_inequalities (v t c : Q) :
  let r := Row (Finite v) (Finite t) (Finite c) in
  (row_label r = "HEALTHY" <->
   v <= inject_Z 6 /\ t <= inject_Z 70 /\ c <= inject_Z 12) /\
  (row_label r = "CRITICAL" <->
   (inject_Z 6 < v /\ inject_Z 70 < t) \/
   (inject_Z 6 < v /\ inject_Z 12 < c) \/
   (inject_Z 70 < t /\ inject_Z 12 < c)).
Proof.
  cbv zeta. unfold row_label, row_score. simpl vibration. simpl temperature.
  simpl current.
  destruct (gt_int (Finite v) 6) eqn:Ev, (gt_int (Finite t) 70) eqn:Et,
    (gt_int (Finite c) 12) eqn:Ec; simpl;
    try apply gt_int_true in Ev; try apply gt_int_false in Ev;
    try apply gt_int_true in Et; try apply gt_int_false in Et;
    try apply gt_int_true in Ec; try apply gt_int_false in Ec;
    (split; split; intros H; try discriminate; try reflexivity; auto;
     repeat match goal with
            | H : _ /\ _ |- _ => destruct H
            | H : _ \/ _ |- _ => destruct H
            end;
     try (exfalso;
          match goal with
          | H1 : ?a < ?b, H2 : ?b <= ?a |- _ => exact (Qlt_not_le _ _ H1 H2)
          end);
     auto 6).
Qed.

Lemma gt_int_le_reading (x x' : reading) (k : Z) :
  le_reading x x' = true -> gt_int x k = true -> gt_int x' k = true.
Proof.
  destruct x as [q| | |], x' as [q'| | |]; simpl; intros Hle H;
    try discriminate; try reflexivity.
  apply Qle_bool_iff in Hle. exact (gt_int_mono q q' k Hle H).
Qed.

(** X9: larger readings never give a milder label.  If every reading of
    one row is [<=] the matching reading of another row, as Python compares
    floats (infinite readings included, and never true of a NaN), the first
    row's score is at most the second's, and so is its class index. *)
Theorem severity_is_monotone (r r' : row) :
  le_reading (vibration r) (vibration r') = true ->
  le_reading (temperature r) (temperature r') = true ->
  le_reading (current r) (current r') = true ->
  (row_score r <= row_score r')%nat /\
  exists i j, encode (row_label r) = Some i /\ encode (row_label r') = Some j /\
              (i <= j)%Z.
Proof.
  intros Hv Ht Hc.
  assert (Hs : (row_score r <= row_score r')%nat).
  { unfold row_score.
    pose proof (gt_int_le_reading _ _ 6 Hv) as Mv.
    pose proof (gt_int_le_reading _ _ 70 Ht) as Mt.
    pose proof (gt_int_le_reading _ _ 12 Hc) as Mc.
    destruct (gt_int (vibration r) 6), (gt_int (temperature r) 70),
      (gt_int (current r) 12);
      try rewrite (Mv eq_refl); try rewrite (Mt eq_refl); try rewrite (Mc eq_refl);
      destruct (gt_int (vibration r') 6), (gt_int (temperature r') 70),
        (gt_int (current r') 12); lia. }
  split; [exact Hs|].
  exists (Z.of_nat (Nat.min 2 (row_score r))), (Z.of_nat (Nat.min 2 (row_score r'))).
  rewrite !encode_row_label. repeat split. lia.
Qed.

Lemma severity_is_monotone_witness :
  (row_score (Row (Finite (inject_Z 5)) (Finite (inject_Z 71)) NegInf) <=
   row_score (Row PosInf (Finite (inject_Z 80)) (Finite (inject_Z 3))))%nat.
Proof.
  apply (severity_is_monotone
           (Row (Finite (inject_Z 5)) (Finite (inject_Z 71)) NegInf)
           (Row PosInf (Finite (inject_Z 80)) (Finite (inject_Z 3))));
    reflexivity.
Defined.

(** X10: the class index the trainer gives a synthesized label is the
    row's score capped at 2, for every row, whatever its readings: scores 0
    and 1 keep their value and scores 2 and 3 share the index 2. *)
Theorem synthesized_index_is_capped_score (r : row) :
  encode (row_label r) = Some (Z.of_nat (Nat.min 2 (row_score r))).
Proof. apply encode_row_label. Qed.

(** X11: the maintenance advice of the dashboard applies the synthesizer's
    thresholds: it gives one line per threshold exceeded, in the order
    vibration, temperature, current, and the single no-issues line exactly
    when the row would be labelled HEALTHY; the list is never empty. *)
Theorem recommendations_follow_score (v t c : reading) :
  let recs := App.recommendations v t c in
  length recs = Nat.max 1 (row_score (Row v t c)) /\
  (recs = [App.REC_NONE] <-> row_label (Row v t c) = "HEALTHY") /\
  (row_label (Row v t c) <> "HEALTHY" ->
   recs = ((if gt_int v 6 then [App.REC_VIBRATION] else []) ++
           (if gt_int t 70 then [App.REC_TEMPERATURE] else []) ++
           (if gt_int c 12 then [App.REC_CURRENT] else []))%list).
Proof.
  cbv zeta. unfold App.recommendations, row_label, row_score.
  simpl vibration. simpl temperature. simpl current.
  destruct (gt_int v 6), (gt_int t 70), (gt_int c 12); simpl;
    (split; [reflexivity|]);
    (split; [split; intros H; try reflexivity; try discriminate
            |intros H; try reflexivity; try (now destruct H)]).
Qed.

End ThresholdMore.

(** *** More on the inverted label map *)
Module InverseMore.
Import App.
Import Spec.

Section Lookup.
Context {K V : Type} (keq : K -> K -> bool).
Hypothesis keq_spec : forall a b, keq a b = true <-> a = b.

Lemma get_set (d : PyDict.dict) (k k' : K) (v : V) :
  PyDict.get keq (PyDict.set keq d k v) k' =
  if keq k' k then Some v else PyDict.get keq d k'.
Proof.
  induction d as [|[k0 v0] d IH]; simpl; [reflexivity|].
  destruct (keq k k0) eqn:E; simpl.
  - apply keq_spec in E as ->. destruct (keq k' k0); reflexivity.
  - rewrite IH. destruct (keq k' k) eqn:E1; [|reflexivity].
    apply keq_spec in E1 as ->. now rewrite E.
Qed.

Lemma get_app (d d' : PyDict.dict) (k : K) :
  PyDict.get keq (d ++ d')%list k =
  match PyDict.get keq d k with
  | Some v => Some v
  | None => PyDict.get (V:=V) keq d' k
  end.
Proof.
  induction d as [|[k0 v0] d IH]; simpl; [reflexivity|].
  destruct (keq k k0); [reflexivity|exact IH].
Qed.

Lemma get_None (d : PyDict.dict) (k : K) :
  PyDict.get keq d k = None <-> forall v : V, ~ In (k, v) d.
Proof.
  induction d as [|[k0 v0] d IH]; simpl.
  - split; [intros _ v []|reflexivity].
  - destruct (keq k k0) eqn:E.
    + apply keq_spec in E as ->. split; [discriminate|].
      intros H. destruct (H v0). now left.
    + rewrite IH. split.
      * intros H v [[= -> ->]|Hin]; [|now apply (H v)].
        rewrite (proj2 (keq_spec k k) eq_refl) in E. discriminate.
      * intros H v Hin. apply (H v). now right.
Qed.
End Lookup.

(** Looking an index up in the inverted map is looking it up in the
    document read backwards. *)
Lemma inv_label_map_rev (l : list (string * Z)) (acc : PyDict.dict (K:=Z) (V:=string))
    (i : Z) :
  PyDict.get Z.eqb
    (fold_left (fun d kv => PyDict.set Z.eqb d (snd kv) (fst kv)) l acc) i =
  match PyDict.get Z.eqb (rev (map swap l)) i with
  | Some name => Some name
  | None => PyDict.get Z.eqb acc i
  end.
Proof.
  revert acc; induction l as [|[n j] l IH]; intros acc; simpl; [reflexivity|].
  rewrite IH, (get_app Z.eqb), (get_set Z.eqb Z.eqb_eq). simpl.
  destruct (PyDict.get Z.eqb (rev (map swap l)) i); [reflexivity|].
  destruct (Z.eqb i j); reflexivity.
Qed.

Lemma inv_label_map_last (pre post : list (string * Z)) (name : string) (i : Z) :
  (forall n, ~ In (n, i) post) ->
  PyDict.get Z.eqb (inv_label_map (pre ++ (name, i) :: post)%list) i = Some name.
Proof.
  intros Hpost. unfold inv_label_map, PyDict.items.
  rewrite inv_label_map_rev, map_app, rev_app_distr. simpl map. simpl rev.
  rewrite (get_app Z.eqb), (get_app Z.eqb).
  assert (E : PyDict.get Z.eqb (rev (map swap post)) i = None).
  { apply (get_None Z.eqb Z.eqb_eq). intros v Hin.
    apply in_rev, in_map_iff in Hin as ([n j] & [= <- <-] & Hin).
    now apply (Hpost n). }
  rewrite E. simpl. now rewrite Z.eqb_refl.
Qed.

(** X12: when several names of the label map carry the same index, the
    inverted map keeps the one written last: a name followed by no other
    entry with its index is the name its index inverts to. *)
Theorem inverse_keeps_last_name (pre post : list (string * Z)) (name : string) (i : Z) :
  (forall n, ~ In (n, i) post) ->
  PyDict.get Z.eqb (inv_label_map (pre ++ (name, i) :: post)%list) i = Some name.
Proof. apply inv_label_map_last. Qed.

Lemma inverse_keeps_last_name_witness :
  PyDict.get Z.eqb
    (inv_label_map ([("HEALTHY", 0%Z)] ++ ("CRITICAL", 0%Z) :: [("WARNING", 1%Z)])%list)
    0%Z = Some "CRITICAL".
Proof.
  apply (inverse_keeps_last_name [("HEALTHY", 0%Z)] [("WARNING", 1%Z)] "CRITICAL" 0%Z).
  intros n [H|[]]. discriminate.
Defined.

(** X13: for any label map whose names are distinct and whose indices are
    distinct, inverting is exact in both directions: a name maps to an index
    if and only if that index inverts to that name. *)
Theorem inverse_of_injective_map (label_map : PyDict.dict (K:=string) (V:=Z))
    (name : string) (i : Z) :
  NoDup (PyDict.keys label_map) -> NoDup (map snd label_map) ->
  (PyDict.get String.eqb label_map name = Some i <->
   PyDict.get Z.eqb (inv_label_map label_map) i = Some name).
Proof.
  intros Hk Hv. split; [|now apply PyDictFacts.inv_label_map_get].
  intros H. apply (PyDictFacts.get_In String.eqb String.eqb_eq) in H.
  apply in_split in H as (pre & post & ->).
  apply inv_label_map_last. intros n Hin.
  rewrite map_app in Hv. simpl in Hv. apply NoDup_remove_2 in Hv.
  apply Hv, in_or_app. right. apply in_map_iff. now exists (n, i).
Qed.

Lemma inverse_of_injective_map_witness :
  PyDict.get String.eqb Samples.critical_first "HEALTHY" = Some 2%Z <->
  PyDict.get Z.eqb (inv_label_map Samples.critical_first) 2%Z = Some "HEALTHY".
Proof.
  apply (inverse_of_injective_map Samples.critical_first "HEALTHY" 2%Z).
  - simpl. repeat constructor; simpl; intuition discriminate.
  - simpl. repeat constructor; simpl; intuition discriminate.
Defined.

Lemma inv_label_map_miss (label_map : PyDict.dict (K:=string) (V:=Z)) (i : Z) :
  PyDict.get Z.eqb (inv_label_map label_map) i = None <->
  forall name, ~ In (name, i) label_map.
Proof.
  unfold inv_label_map, PyDict.items. rewrite inv_label_map_rev. simpl.
  split.
  - intros H name Hin.
    destruct (PyDict.get Z.eqb (rev (map swap label_map)) i) eqn:E; [discriminate|].
    apply (get_None Z.eqb Z.eqb_eq) with (v := name) in E. apply E.
    apply -> in_rev. apply in_map_iff. now exists (name, i).
  - intros H.
    assert (E : PyDict.get Z.eqb (rev (map swap label_map)) i = None).
    { apply (get_None Z.eqb Z.eqb_eq). intros v Hin.
      apply in_rev, in_map_iff in Hin as ([n j] & [= <- <-] & Hin).
      now apply (H n). }
    now rewrite E.
Qed.


(** X14: an index has no name in the inverted map, so that the predictor's
    status lookup fails on it, exactly when no name of the label map
    carries that index. *)
Theorem inverse_misses_unused_index (label_map : PyDict.dict (K:=string) (V:=Z)) (i : Z) :
  PyDict.get Z.eqb (inv_label_map label_map) i = None <->
  forall name, ~ In (name, i) label_map.
Proof. apply inv_label_map_miss. Qed.

End InverseMore.

(** *** More on the predictor *)
Module PredictMore.
Import App.

Lemma risk_of_nonempty (x : Q) (r : list Q) :
  exists risk, risk_of (x :: r) = Ok risk /\ In risk (x :: r).
Proof.
  unfold risk_of. destruct (2 <? length (x :: r))%nat eqn:E.
  - eexists. split; [reflexivity|]. apply nth_In. now apply Nat.ltb_lt.
  - pose proof (PredictFacts.argmax_spec x r) as H. cbv zeta in H.
    destruct H as (_ & Hmax & Hidx & _).
    eexists. split; [exact Hmax|]. now apply nth_In.
Qed.

(** X15: the predictor fails in two ways only.  An empty probability
    vector raises the ValueError of argmax.  Otherwise it raises a KeyError
    on the position of the largest probability exactly when no name of the
    label map carries that position as its index, and returns a status and
    a risk when some name does. *)
Theorem predict_fails_in_two_ways (art : Artifacts) (v t c : reading) :
  let proba := predict_proba art (scaler_transform art [v; t; c]) in
  (proba = [] ->
   predict art v t c =
   Raise (ValueError "attempt to get argmax of an empty sequence")) /\
  (forall idx, argmax proba = Ok idx ->
     ((forall name, ~ In (name, Z.of_nat idx) (meta_label_map art)) ->
      predict art v t c = Raise (KeyError (Z.of_nat idx))) /\
     ((exists name, In (name, Z.of_nat idx) (meta_label_map art)) ->
      exists status risk, predict art v t c = Ok (status, risk))).
Proof.
  cbv zeta. split.
  - intros E. unfold predict. now rewrite E.
  - intros idx Hidx.
    destruct (predict_proba art (scaler_transform art [v; t; c])) as [|x r] eqn:E;
      [discriminate|].
    injection Hidx as <-.
    rewrite (PredictFacts.predict_unfold art v t c x r E).
    destruct (risk_of_nonempty x r) as (risk & Hr & _). rewrite Hr.
    split.
    + intros Hnone. apply InverseMore.inv_label_map_miss in Hnone. now rewrite Hnone.
    + intros [name Hin].
      destruct (PyDict.get Z.eqb (inv_label_map (meta_label_map art))
                           (Z.of_nat (argmax_from r 1 0 x))) as [status|] eqn:G.
      * now exists status, risk.
      * exfalso. apply (proj1 (InverseMore.inv_label_map_miss _ _) G name Hin).
Qed.

Lemma predict_fails_in_two_ways_witness :
  predict {| scaler_transform := Samples.no_scaling;
             predict_proba := fun _ => [];
             meta_label_map := TrainModel.label_map |}
          (Finite (inject_Z 3)) (Finite (inject_Z 35)) (Finite (inject_Z 6)) =
  Raise (ValueError "attempt to get argmax of an empty sequence") /\
  predict {| scaler_transform := Samples.no_scaling;
             predict_proba := Samples.mostly_first;
             meta_label_map := [("WARNING", 1%Z)] |}
          (Finite (inject_Z 3)) (Finite (inject_Z 35)) (Finite (inject_Z 6)) =
  Raise (KeyError 0%Z).
Proof.
  split.
  - apply (proj1 (predict_fails_in_two_ways
                    {| scaler_transform := Samples.no_scaling;
                       predict_proba := fun _ => [];
                       meta_label_map := TrainModel.label_map |}
                    (Finite (inject_Z 3)) (Finite (inject_Z 35)) (Finite (inject_Z 6)))).
    reflexivity.
  - apply (proj2 (predict_fails_in_two_ways
                    {| scaler_transform := Samples.no_scaling;
                       predict_proba := Samples.mostly_first;
                       meta_label_map := [("WARNING", 1%Z)] |}
                    (Finite (inject_Z 3)) (Finite (inject_Z 35)) (Finite (inject_Z 6)))
                 0%nat eq_refl).
    intros name [H|[]]. discriminate.
Defined.

(** X16: whenever the predictor returns, the risk is one of the entries of
    the probability vector and is at most the largest one; so a risk lies
    within any bounds that hold for all the entries, in particular within
    0 and 1 when the entries are probabilities. *)
Theorem risk_is_an_entry (art : Artifacts) (v t c : reading) (status : string) (risk : Q) :
  let proba := predict_proba art (scaler_transform art [v; t; c]) in
  predict art v t c = Ok (status, risk) ->
  In risk proba /\
  (exists idx, argmax proba = Ok idx /\ risk <= nth idx proba 0) /\
  (forall lo hi, Forall (fun p => lo <= p /\ p <= hi) proba -> lo <= risk /\ risk <= hi).
Proof.
  cbv zeta. intros Hp.
  destruct (predict_proba art (scaler_transform art [v; t; c])) as [|x r] eqn:E.
  - unfold predict in Hp. rewrite E in Hp. discriminate.
  - rewrite (PredictFacts.predict_unfold art v t c x r E) in Hp.
    destruct (risk_of_nonempty x r) as (risk0 & Hr & Hin). rewrite Hr in Hp.
    destruct (PyDict.get Z.eqb _ _); [|discriminate].
    injection Hp as _ <-.
    split; [exact Hin|]. split.
    + exists (argmax_from r 1 0 x). split; [reflexivity|].
      pose proof (PredictFacts.argmax_spec x r) as H. cbv zeta in H.
      destruct H as (_ & _ & _ & Hall & _).
      destruct (In_nth _ _ 0 Hin) as (j & Hj & <-). now apply Hall.
    + intros lo hi Hb. rewrite Forall_forall in Hb. now apply Hb.
Qed.

Lemma risk_is_an_entry_witness :
  In (1 # 10) (Samples.mostly_first []) /\ 0 <= 1 # 10 /\ 1 # 10 <= 1.
Proof.
  destruct (risk_is_an_entry Samples.trained (Finite (inject_Z 3)) (Finite (inject_Z 35))
              (Finite (inject_Z 6)) "HEALTHY" (1 # 10) eq_refl) as (Hin & _ & Hb).
  split; [exact Hin|]. apply Hb.
  repeat constructor; discriminate.
Defined.

(** X17: for a three-entry vector of non-negative probabilities that sum
    to 1, a prediction of the class at position 2 comes with a risk above
    1/3, and a prediction of any other class comes with a risk of at most
    1/2. *)
Theorem risk_under_a_distribution (art : Artifacts) (v t c : reading)
    (p0 p1 p2 : Q) (status : string) (risk : Q) :
  predict_proba art (scaler_transform art [v; t; c]) = [p0; p1; p2] ->
  0 <= p0 -> 0 <= p1 -> 0 <= p2 -> p0 + p1 + p2 == 1 ->
  predict art v t c = Ok (status, risk) ->
  risk = p2 /\
  exists idx, argmax [p0; p1; p2] = Ok idx /\
              (idx = 2%nat -> 1 # 3 < risk) /\
              (idx <> 2%nat -> risk <= 1 # 2).
Proof.
  intros E H0 H1 H2 Hsum Hp.
  rewrite (PredictFacts.predict_unfold art v t c p0 [p1; p2] E) in Hp.
  destruct (PyDict.get Z.eqb _ _); [|discriminate].
  simpl in Hp. injection Hp as _ <-.
  split; [reflexivity|].
  pose proof (PredictFacts.argmax_spec p0 [p1; p2]) as H. cbv zeta in H.
  destruct H as (Ha & _ & Hidx & Hall & Hfirst).
  exists (argmax_from [p1; p2] 1 0 p0). split; [exact Ha|].
  set (idx := argmax_from [p1; p2] 1 0 p0) in *.
  split.
  - intros Hi. rewrite Hi in Hfirst.
    pose proof (Hfirst 0%nat ltac:(lia)) as F0.
    pose proof (Hfirst 1%nat ltac:(lia)) as F1.
    simpl in F0, F1. lra.
  - intros Hi. pose proof (Hall 2%nat ltac:(simpl; lia)) as A2.
    simpl in Hidx.
    destruct idx as [|[|[|k]]]; simpl in A2; try lia; try lra.
Qed.

Lemma risk_under_a_distribution_witness :
  1 # 10 = 1 # 10 /\
  exists idx, argmax [7 # 10; 2 # 10; 1 # 10] = Ok idx /\
              (idx = 2%nat -> 1 # 3 < 1 # 10) /\
              (idx <> 2%nat -> 1 # 10 <= 1 # 2).
Proof.
  apply (risk_under_a_distribution Samples.trained (Finite (inject_Z 3))
           (Finite (inject_Z 35)) (Finite (inject_Z 6))
           (7 # 10) (2 # 10) (1 # 10) "HEALTHY" (1 # 10));
    try reflexivity; discriminate.
Defined.

(** X18: the status colour is black exactly for a status outside HEALTHY,
    WARNING, CRITICAL; with a label map whose names are distinct and among
    those three, every status the predictor returns is one of the three and
    is shown in green, orange or red. *)
Theorem predicted_status_has_a_colour (art : Artifacts) (v t c : reading)
    (status : string) (risk : Q) :
  (forall s, status_color s = "black" <-> ~ In s Spec.CANONICAL) /\
  (NoDup (PyDict.keys (meta_label_map art)) ->
   (forall n, In n (PyDict.keys (meta_label_map art)) -> In n Spec.CANONICAL) ->
   predict art v t c = Ok (status, risk) ->
   In status Spec.CANONICAL /\ In (status_color status) ["green"; "orange"; "red"]).
Proof.
  assert (Hcol : forall s, In s Spec.CANONICAL ->
                           In (status_color s) ["green"; "orange"; "red"]).
  { intros s [<-|[<-|[<-|[]]]]; simpl; auto. }
  split.
  - intros s. unfold status_color, STATUS_COLORS. simpl.
    destruct (String.eqb_spec s "HEALTHY") as [->|H1];
      [split; [discriminate|intros H; destruct H; simpl; auto]|].
    destruct (String.eqb_spec s "WARNING") as [->|H2];
      [split; [discriminate|intros H; destruct H; simpl; auto]|].
    destruct (String.eqb_spec s "CRITICAL") as [->|H3];
      [split; [discriminate|intros H; destruct H; simpl; auto]|].
    split; [|reflexivity]. intros _ [H|[H|[H|[]]]]; congruence.
  - intros Hnd Hkeys Hp.
    assert (Hs : In status Spec.CANONICAL).
    { destruct (predict_proba art (scaler_transform art [v; t; c])) as [|x r] eqn:E.
      - unfold predict in Hp. rewrite E in Hp. discriminate.
      - rewrite (PredictFacts.predict_unfold art v t c x r E) in Hp.
        destruct (PyDict.get Z.eqb _ _) as [s|] eqn:G; [|discriminate].
        destruct (risk_of (x :: r)); [|discriminate].
        injection Hp as -> _.
        apply (PyDictFacts.inv_label_map_get _ _ _ Hnd) in G.
        apply (PyDictFacts.get_In String.eqb String.eqb_eq) in G.
        apply Hkeys. unfold PyDict.keys. apply in_map_iff.
        now exists (status, Z.of_nat (argmax_from r 1 0 x)). }
    split; [exact Hs|now apply Hcol].
Qed.

Lemma predicted_status_has_a_colour_witness :
  In "HEALTHY" Spec.CANONICAL /\ In (status_color "HEALTHY") ["green"; "orange"; "red"].
Proof.
  apply (proj2 (predicted_status_has_a_colour Samples.trained (Finite (inject_Z 3))
                  (Finite (inject_Z 35)) (Finite (inject_Z 6)) "HEALTHY" (1 # 10))).
  - simpl. repeat constructor; simpl; intuition discriminate.
  - simpl. intros n [<-|[<-|[<-|[]]]]; auto.
  - reflexivity.
Defined.

End PredictMore.

(** *** More on the hypothesis generator *)
Module HypothesisMore.
Import App.

Lemma contains_later (s pre t : string) :
  PyStr.contains s t = true -> PyStr.contains s (pre ++ t) = true.
Proof.
  intros H. apply PyStrFacts.contains_spec in H as (a & b & ->).
  apply PyStrFacts.contains_spec. exists (pre ++ a), b.
  induction pre as [|x pre IH]; simpl; [reflexivity|now rewrite IH].
Qed.

Lemma append_assoc (a b c : string) : (a ++ b) ++ c = a ++ b ++ c.
Proof. induction a as [|x a IH]; simpl; [reflexivity|now rewrite IH]. Qed.

Lemma contains_field (a x b rest : string) :
  PyStr.contains (a ++ x ++ b) (a ++ x ++ b ++ rest) = true.
Proof.
  apply PyStrFacts.contains_spec. exists "", rest. simpl.
  now rewrite !append_assoc.
Qed.

(** X19: the prompt sent to the service carries the five values of the
    analysis, each on its own labelled line: the three readings and the
    risk as they are formatted, and the status as it is. *)
Theorem prompt_carries_the_five_values
    (str_float : reading -> string) (fmt_3f : Q -> string)
    (v t c : reading) (status : string) (risk : Q) :
  let prompt := prompt_of str_float fmt_3f v t c status risk in
  PyStr.contains ("• Vibration: " ++ str_float v ++ " mm/s" ++ nl) prompt = true /\
  PyStr.contains ("• Temperature: " ++ str_float t ++ " °C" ++ nl) prompt = true /\
  PyStr.contains ("• Motor Current: " ++ str_float c ++ " A" ++ nl) prompt = true /\
  PyStr.contains ("• Status: " ++ status ++ nl) prompt = true /\
  PyStr.contains ("• Failure Risk: " ++ fmt_3f risk ++ nl) prompt = true.
Proof.
  cbv zeta. unfold prompt_of.
  assert (H3 : forall a x b rest,
             PyStr.contains (a ++ x ++ b ++ nl) (a ++ x ++ b ++ nl ++ rest) = true).
  { intros a x b rest. apply PyStrFacts.contains_spec. exists "", rest. simpl.
    now rewrite !append_assoc. }
  repeat split.
  - do 6 apply contains_later. apply H3.
  - do 10 apply contains_later. apply H3.
  - do 14 apply contains_later. apply H3.
  - do 18 apply contains_later. apply contains_field.
  - do 21 apply contains_later. apply contains_field.
Qed.

(** X20: with a key set and the service answering, the answer's text is
    returned as it is when it is not empty, whatever the candidates hold.
    A text property whose read raises anything but AttributeError turns
    into the error fallback without the candidates being looked at.  With
    no usable text (missing, empty, or a read that raises AttributeError,
    which [hasattr] takes for a missing attribute), the first candidate's
    text is returned if it can be read and the printed response otherwise,
    also when there is no candidate at all; a candidates property whose
    read raises anything but AttributeError turns into the error
    fallback. *)
Theorem response_is_probed_in_order
    (str_float : reading -> string) (fmt_3f : Q -> string)
    (env : Env) (v t c : reading) (status : string) (risk : Q)
    (key : string) (r : Response) :
  GEMINI_API_KEY env = Some key -> key <> "" ->
  generate_content env key (prompt_of str_float fmt_3f v t c status risk) = Ok r ->
  let answer := generate_hypothesis str_float fmt_3f env v t c status risk in
  (forall s, text r = Present s -> s <> "" -> answer = Ok s) /\
  (forall e, text r = Throws e -> (forall msg, e <> AttributeError msg) ->
             answer = Ok (fallback_error e)) /\
  (text r = Absent \/ text r = Present "" \/
   (exists msg, text r = Throws (AttributeError msg)) ->
   (forall s rest, candidates r = Present (Some s :: rest) -> answer = Ok s) /\
   (forall rest, candidates r = Present (None :: rest) ->
                 answer = Ok (str_response r)) /\
   (candidates r = Absent \/ candidates r = Present [] \/
    (exists msg, candidates r = Throws (AttributeError msg)) ->
    answer = Ok (str_response r)) /\
   (forall e, candidates r = Throws e -> (forall msg, e <> AttributeError msg) ->
              answer = Ok (fallback_error e))).
Proof.
  intros Hkey Hne Hcall. cbv zeta. unfold generate_hypothesis, ask_gemini.
  rewrite Hkey. destruct key as [|a key]; [now destruct Hne|].
  rewrite Hcall. simpl bind.
  split; [|split].
  - intros s Hs Hs'. rewrite Hs. destruct s; [now destruct Hs'|reflexivity].
  - intros e He Hattr. rewrite He.
    destruct e; try reflexivity. now destruct (Hattr msg).
  - intros Ht.
    assert (E : has_truthy PyStr.truthy (text r) = Ok None)
      by (destruct Ht as [-> | [-> | [msg ->]]]; reflexivity).
    rewrite E. simpl bind.
    split; [|split; [|split]].
    + intros s rest Hc. now rewrite Hc.
    + intros rest Hc. now rewrite Hc.
    + intros [-> | [-> | [msg ->]]]; reflexivity.
    + intros e Hc Hattr. rewrite Hc.
      destruct e; try reflexivity. now destruct (Hattr msg).
Qed.

Lemma response_is_probed_in_order_witness :
  generate_hypothesis Samples.show_float Samples.show_3f
    {| GEMINI_API_KEY := Some "key";
       generate_content := fun _ _ =>
         Ok {| text := Throws (AttributeError "no text");
               candidates := Present [Some "usable"];
               str_response := "response" |};
       time_now := 0%Z |}
    (Finite (inject_Z 3)) (Finite (inject_Z 35)) (Finite (inject_Z 6)) "HEALTHY" (1 # 10)
  = Ok "usable".
Proof.
  destruct (response_is_probed_in_order Samples.show_float Samples.show_3f
              {| GEMINI_API_KEY := Some "key";
                 generate_content := fun _ _ =>
                   Ok {| text := Throws (AttributeError "no text");
                         candidates := Present [Some "usable"];
                         str_response := "response" |};
                 time_now := 0%Z |}
              (Finite (inject_Z 3)) (Finite (inject_Z 35)) (Finite (inject_Z 6))
              "HEALTHY" (1 # 10) "key"
              {| text := Throws (AttributeError "no text");
                 candidates := Present [Some "usable"];
                 str_response := "response" |}
              eq_refl ltac:(discriminate) eq_refl) as (_ & _ & H).
  destruct H as (H & _).
  - right. right. now exists "no text".
  - now apply (H "usable" []).
Defined.

End HypothesisMore.

(** *** More on the history and the session *)
Module HistoryMore.
Import App.

Lemma history_df_rows (history : list HistoryRecord) :
  length (trows (history_df history)) = length history /\
  Forall (fun row => length row = length (tcolumns (history_df history)))
         (trows (history_df history)).
Proof.
  destruct history as [|r history]; simpl; [split; [reflexivity|constructor]|].
  rewrite length_map. split; [reflexivity|].
  constructor; [reflexivity|].
  apply Forall_forall. intros row Hin. apply in_map_iff in Hin as (x & <- & _).
  reflexivity.
Qed.

(** X21: the table built from the history has one row per record, in the
    order of the history, and every row has exactly as many cells as the
    table has columns: the seven record fields, plus an added "time" column
    as soon as the history holds a record. *)
Theorem history_table_shape (history : list HistoryRecord) :
  length (trows (history_df history)) = length history /\
  Forall (fun row => length row = length (tcolumns (history_df history)))
         (trows (history_df history)) /\
  (history <> [] ->
   tcolumns (history_df history) = (HISTORY_COLUMNS ++ ["time"])%list) /\
  map (fun row => nth 0 row (CStr "")) (trows (history_df history)) =
    map (fun r => CInt (timestamp r)) history /\
  map (fun row => nth 6 row (CStr "")) (trows (history_df history)) =
    map (fun r => CStr (hypothesis r)) history.
Proof.
  destruct (history_df_rows history) as [Hl Hr].
  split; [exact Hl|]. split; [exact Hr|].
  destruct history as [|r history].
  - split; [intros H; now destruct H|]. split; reflexivity.
  - split; [reflexivity|].
    change (trows (history_df (r :: history)))
      with (map (fun r => [CInt (timestamp r); CFloat (vibration r);
                           CFloat (temperature r); CFloat (current r);
                           CStr (status r); CFloat (Finite (risk r));
                           CStr (hypothesis r); CTime (timestamp r)])
                (r :: history)).
    split; rewrite List.map_map; reflexivity.
Qed.

(** X22: the table is empty exactly when the history is, so the sidebar
    offers a download exactly when the history holds a record; the CSV it
    then offers starts with a header of eight names, the seven record fields
    followed by time, and goes on with the records in order, each as its
    eight cells written by the cell writer, joined by commas and closed by a
    line terminator (a cell that holds line feeds makes its record span
    several lines). *)
Theorem download_offered_when_history (csv_field : cell -> string)
    (history : list HistoryRecord) :
  (empty (history_df history) = true <-> history = []) /\
  (download_offer csv_field (history_df history) = None <-> history = []) /\
  (history <> [] ->
   download_offer csv_field (history_df history) =
   Some ("timestamp,vibration,temperature,current,status,risk,hypothesis,time" ++ nl ++
         String.concat ""
           (map (fun r =>
                   String.concat ","
                     (map csv_field
                          [CInt (timestamp r); CFloat (vibration r);
                           CFloat (temperature r); CFloat (current r);
                           CStr (status r); CFloat (Finite (risk r));
                           CStr (hypothesis r); CTime (timestamp r)]) ++ nl)
                history))).
Proof.
  destruct history as [|r history].
  - split; [split; reflexivity|]. split; [split; reflexivity|].
    intros H. now destruct H.
  - split; [split; discriminate|]. split; [split; discriminate|].
    intros _. unfold download_offer.
    change (empty (history_df (r :: history))) with false. cbv [negb].
    unfold to_csv.
    change (trows (history_df (r :: history)))
      with (map (fun r => [CInt (timestamp r); CFloat (vibration r);
                           CFloat (temperature r); CFloat (current r);
                           CStr (status r); CFloat (Finite (risk r));
                           CStr (hypothesis r); CTime (timestamp r)])
                (r :: history)).
    rewrite List.map_map. reflexivity.
Qed.

Lemma download_offered_when_history_witness :
  exists body,
    download_offer Samples.show_cell (history_df [Samples.one_record]) =
    Some ("timestamp,vibration,temperature,current,status,risk,hypothesis,time" ++ nl
          ++ body).
Proof.
  eexists.
  apply (proj2 (proj2 (download_offered_when_history Samples.show_cell
                         [Samples.one_record]))).
  discriminate.
Defined.

Section Session.
Variable str_float : reading -> string.
Variable fmt_3f : Q -> string.
Variable csv_field : cell -> string.

Lemma download_offer_app (history : list HistoryRecord) (r : HistoryRecord) :
  download_offer csv_field (history_df (history ++ [r])) =
  Some (to_csv csv_field (history_df (history ++ [r]))).
Proof. destruct history; reflexivity. Qed.

Lemma run_analyze_ok (env : Env) (art : Artifacts) (v t c : reading)
    (history : list HistoryRecord) (status : string) (risk : Q) :
  predict art v t c = Ok (status, risk) ->
  exists text,
    generate_hypothesis str_float fmt_3f env v t c status risk = Ok text /\
    run str_float fmt_3f csv_field env art v t c ClickAnalyze history =
    Ok ((history ++ [{| timestamp := time_now env; vibration := v; temperature := t;
                        current := c; status := status; risk := risk;
                        hypothesis := text |}])%list,
        Some (to_csv csv_field
                (history_df
                   (history ++ [{| timestamp := time_now env; vibration := v;
                                   temperature := t; current := c; status := status;
                                   risk := risk; hypothesis := text |}])%list))).
Proof.
  intros Hp.
  destruct (SessionFacts.analyze_appends str_float fmt_3f env art v t c history
              status risk Hp) as (text & Ht & Ha).
  exists text. split; [exact Ht|].
  unfold run. rewrite Ha. simpl bind. now rewrite download_offer_app.
Qed.

Lemma run_analyze_raise (env : Env) (art : Artifacts) (v t c : reading)
    (history : list HistoryRecord) (e : exception) :
  predict art v t c = Raise e ->
  run str_float fmt_3f csv_field env art v t c ClickAnalyze history = Raise e.
Proof. intros Hp. unfold run, analyze. now rewrite Hp. Qed.

Lemma run_grows (env : Env) (art : Artifacts) (v t c : reading) (b : click)
    (history : list HistoryRecord) :
  b <> ClickClear ->
  match run str_float fmt_3f csv_field env art v t c b history with
  | Ok out =>
      exists added, fst out = (history ++ added)%list /\
                    length added = match b with ClickAnalyze => 1%nat | _ => 0%nat end
  | Raise _ => b = ClickAnalyze /\ exists e, predict art v t c = Raise e
  end.
Proof.
  intros Hb. destruct b; [| |now destruct Hb].
  - simpl. exists []. now rewrite app_nil_r.
  - destruct (predict art v t c) as [[status risk]|e] eqn:Hp.
    + destruct (run_analyze_ok env art v t c history status risk Hp)
        as (text & _ & Hr).
      rewrite Hr. simpl. eexists. split; reflexivity.
    + rewrite (run_analyze_raise env art v t c history e Hp). split; eauto.
Qed.

Lemma replay_grows (art : Artifacts) (interactions : list Interaction) :
  Forall (fun i => at_click i <> ClickClear) interactions ->
  forall history,
    exists added,
      replay str_float fmt_3f csv_field art interactions history =
        (history ++ added)%list /\
      (length added <=
       length (filter (fun i => match at_click i with
                                           | ClickAnalyze => true
                                           | _ => false
                                           end) interactions))%nat /\
      ((forall v t c, exists out, predict art v t c = Ok out) ->
       length added =
       length (filter (fun i => match at_click i with
                                           | ClickAnalyze => true
                                           | _ => false
                                           end) interactions)).
Proof.
  induction 1 as [|i rest Hi Hrest IH]; intros history; simpl.
  - exists []. rewrite app_nil_r. repeat split; auto.
  - pose proof (run_grows (at_env i) art (at_vibration i) (at_temperature i)
                  (at_current i) (at_click i) history Hi) as Hrun.
    destruct (run str_float fmt_3f csv_field (at_env i) art (at_vibration i)
                (at_temperature i) (at_current i) (at_click i) history)
      as [out|e].
    + destruct Hrun as (added & -> & Hlen).
      destruct (IH (history ++ added)%list) as (more & -> & Hle & Heq).
      exists (added ++ more)%list. rewrite app_assoc. split; [reflexivity|].
      rewrite length_app, Hlen.
      destruct (at_click i); simpl; split; try lia;
        intros Htot; specialize (Heq Htot); lia.
    + destruct Hrun as (Hc & e' & Hp).
      destruct (IH history) as (more & -> & Hle & Heq).
      exists more. split; [reflexivity|]. rewrite Hc. simpl. split; [lia|].
      intros Htot. destruct (Htot (at_vibration i) (at_temperature i) (at_current i))
        as [out Hout]. congruence.
Qed.

Lemma replay_app (art : Artifacts) (l1 l2 : list Interaction)
    (history : list HistoryRecord) :
  replay str_float fmt_3f csv_field art (l1 ++ l2) history =
  replay str_float fmt_3f csv_field art l2
         (replay str_float fmt_3f csv_field art l1 history).
Proof.
  revert history; induction l1 as [|i l1 IH]; intros history; simpl; [reflexivity|].
  destruct (run _ _ _ _ _ _ _ _ _ _); apply IH.
Qed.

End Session.

(** X23: a run of the script on the Analyze button either fails with the
    predictor's own exception, leaving the history as it was, or appends
    exactly one record, built from the inputs, the prediction, the clock and
    the generated text, after the records already there, and then offers the
    whole table, new record included, for download; a run without a click
    leaves the history unchanged. *)
Theorem analysis_run_outcomes
    (str_float : reading -> string) (fmt_3f : Q -> string) (csv_field : cell -> string)
    (env : Env) (art : Artifacts) (v t c : reading) (history : list HistoryRecord) :
  (forall e, predict art v t c = Raise e ->
             run str_float fmt_3f csv_field env art v t c ClickAnalyze history = Raise e) /\
  (forall status risk, predict art v t c = Ok (status, risk) ->
     exists text,
       generate_hypothesis str_float fmt_3f env v t c status risk = Ok text /\
       run str_float fmt_3f csv_field env art v t c ClickAnalyze history =
       Ok ((history ++ [{| timestamp := time_now env; vibration := v;
                           temperature := t; current := c; status := status;
                           risk := risk; hypothesis := text |}])%list,
           Some (to_csv csv_field
                   (history_df
                      (history ++ [{| timestamp := time_now env; vibration := v;
                                      temperature := t; current := c;
                                      status := status; risk := risk;
                                      hypothesis := text |}])%list)))) /\
  run str_float fmt_3f csv_field env art v t c NoClick history =
    Ok (history, download_offer csv_field (history_df history)).
Proof.
  split; [intros e; apply run_analyze_raise|].
  split; [intros status risk; apply run_analyze_ok|reflexivity].
Qed.

Lemma analysis_run_outcomes_witness :
  exists text,
    run Samples.show_float Samples.show_3f Samples.show_cell Samples.env_no_key
        Samples.trained (Finite (inject_Z 3)) (Finite (inject_Z 35)) (Finite (inject_Z 6))
        ClickAnalyze [Samples.one_record] =
    Ok ([Samples.one_record;
         {| timestamp := 1700000000%Z; vibration := Finite (inject_Z 3);
            temperature := Finite (inject_Z 35); current := Finite (inject_Z 6);
            status := "HEALTHY"; risk := 1 # 10; hypothesis := text |}],
        Some (to_csv Samples.show_cell
                (history_df
                   [Samples.one_record;
                    {| timestamp := 1700000000%Z; vibration := Finite (inject_Z 3);
                       temperature := Finite (inject_Z 35);
                       current := Finite (inject_Z 6);
                       status := "HEALTHY"; risk := 1 # 10; hypothesis := text |}]))).
Proof.
  destruct (analysis_run_outcomes Samples.show_float Samples.show_3f Samples.show_cell
              Samples.env_no_key Samples.trained (Finite (inject_Z 3))
              (Finite (inject_Z 35)) (Finite (inject_Z 6)) [Samples.one_record])
    as (_ & H & _).
  destruct (H "HEALTHY" (1 # 10) eq_refl) as (text & _ & Hr).
  exists text. exact Hr.
Defined.

(** X27: the download lags one run behind a clearing.  The run in which
    Clear is clicked empties the history but, the table having been built
    before the sidebar ran, still offers the table of the history as it was,
    which is a download whenever that history held a record; the run that
    follows, on the empty history, offers none. *)
Theorem download_lags_behind_clearing
    (str_float : reading -> string) (fmt_3f : Q -> string) (csv_field : cell -> string)
    (env : Env) (art : Artifacts) (v t c : reading) (history : list HistoryRecord) :
  run str_float fmt_3f csv_field env art v t c ClickClear history =
    Ok ([], download_offer csv_field (history_df history)) /\
  (history <> [] ->
   download_offer csv_field (history_df history) =
   Some (to_csv csv_field (history_df history))) /\
  run str_float fmt_3f csv_field env art v t c NoClick [] = Ok ([], None).
Proof.
  split; [reflexivity|]. split; [|reflexivity].
  destruct history as [|r history]; [intros H; now destruct H|reflexivity].
Qed.

Lemma download_lags_behind_clearing_witness :
  download_offer Samples.show_cell (history_df [Samples.one_record]) =
  Some (to_csv Samples.show_cell (history_df [Samples.one_record])).
Proof.
  apply (proj1 (proj2 (download_lags_behind_clearing Samples.show_float Samples.show_3f
                         Samples.show_cell Samples.env_no_key Samples.trained
                         (Finite (inject_Z 3)) (Finite (inject_Z 35))
                         (Finite (inject_Z 6)) [Samples.one_record]))).
  discriminate.
Defined.

(** X24: the history is append-only between clearings.  Over any sequence
    of interactions without a click on Clear, the history at the end is the
    history at the start followed by new records, at most one per click on
    Analyze, and exactly one per click when the predictor returns on every
    input; records already there are neither changed nor dropped. *)
Theorem history_is_append_only
    (str_float : reading -> string) (fmt_3f : Q -> string) (csv_field : cell -> string)
    (art : Artifacts) (interactions : list Interaction) (history : list HistoryRecord) :
  Forall (fun i => at_click i <> ClickClear) interactions ->
  exists added,
    replay str_float fmt_3f csv_field art interactions history =
      (history ++ added)%list /\
    (length added <=
     length (filter (fun i => match at_click i with ClickAnalyze => true | _ => false end)
                    interactions))%nat /\
    ((forall v t c, exists out, predict art v t c = Ok out) ->
     length added =
     length (filter (fun i => match at_click i with ClickAnalyze => true | _ => false end)
                    interactions)).
Proof. intros H. apply (replay_grows str_float fmt_3f csv_field art interactions H). Qed.

Lemma history_is_append_only_witness :
  exists added,
    replay Samples.show_float Samples.show_3f Samples.show_cell Samples.trained
      [{| at_env := Samples.env_no_key; at_click := ClickAnalyze;
          at_vibration := Finite (inject_Z 8); at_temperature := Finite (inject_Z 75);
          at_current := Finite (inject_Z 13) |};
       {| at_env := Samples.env_raising "timeout"; at_click := NoClick;
          at_vibration := Finite (inject_Z 8); at_temperature := Finite (inject_Z 75);
          at_current := Finite (inject_Z 13) |}]
      [Samples.one_record] = ([Samples.one_record] ++ added)%list /\
    (length added <= 1)%nat.
Proof.
  destruct (history_is_append_only Samples.show_float Samples.show_3f Samples.show_cell
              Samples.trained
              [{| at_env := Samples.env_no_key; at_click := ClickAnalyze;
                  at_vibration := Finite (inject_Z 8);
                  at_temperature := Finite (inject_Z 75);
                  at_current := Finite (inject_Z 13) |};
               {| at_env := Samples.env_raising "timeout"; at_click := NoClick;
                  at_vibration := Finite (inject_Z 8);
                  at_temperature := Finite (inject_Z 75);
                  at_current := Finite (inject_Z 13) |}]
              [Samples.one_record]) as (added & H1 & H2 & _).
  - repeat constructor; discriminate.
  - exists added. split; [exact H1|exact H2].
Defined.

(** X25: a click on Clear forgets everything: the history after any
    sequence of interactions that contains a click on Clear is the history
    that the interactions after that click build from the empty history,
    whatever came before. *)
Theorem clear_forgets_the_past
    (str_float : reading -> string) (fmt_3f : Q -> string) (csv_field : cell -> string)
    (art : Artifacts) (before after : list Interaction) (i : Interaction)
    (history : list HistoryRecord) :
  at_click i = ClickClear ->
  replay str_float fmt_3f csv_field art (before ++ i :: after) history =
  replay str_float fmt_3f csv_field art after [].
Proof.
  intros Hi. rewrite replay_app. simpl. unfold run. rewrite Hi. reflexivity.
Qed.

Lemma clear_forgets_the_past_witness :
  replay Samples.show_float Samples.show_3f Samples.show_cell Samples.trained
    ([{| at_env := Samples.env_no_key; at_click := ClickAnalyze;
         at_vibration := Finite (inject_Z 8); at_temperature := Finite (inject_Z 75);
         at_current := Finite (inject_Z 13) |}] ++
     {| at_env := Samples.env_no_key; at_click := ClickClear;
        at_vibration := Finite (inject_Z 8); at_temperature := Finite (inject_Z 75);
        at_current := Finite (inject_Z 13) |} :: [])
    [Samples.one_record] =
  replay Samples.show_float Samples.show_3f Samples.show_cell Samples.trained [] [].
Proof.
  apply clear_forgets_the_past. reflexivity.
Defined.

End HistoryMore.
